(** * vdb: a file-backed vector store with brute-force similarity retrieval

    A shallow embedding of [main.go] (chunking, the vector arithmetic, the
    gob-backed store and the top-3 retrieval), followed by the properties
    of the specification stated and settled against it. *)

From Stdlib Require Import ZArith Lia Bool.
From Stdlib Require Import Floats.SpecFloat.
From Stdlib Require Import Strings.Ascii Strings.String.
From Stdlib Require Import Sorting.Sorted.
From stdpp Require Import gmap strings list.

(** ** Floating point

    Go's [float32] and [float64] are IEEE 754 binary32 and binary64.  Both
    are modelled by [spec_float] (sign, mantissa, exponent; one NaN) with
    the correctly rounded operations of [SpecFloat] instantiated at
    precision 24 / exponent bound 128 and precision 53 / exponent bound
    1024.  Operations are rounded one at a time (no fused multiply-add). *)

Module F32.
Definition prec : Z := 24%Z.
Definition emax : Z := 128%Z.
Definition t := spec_float.

Definition zero : t := S754_zero false.
Definition add : t -> t -> t := SFadd prec emax.
Definition mul : t -> t -> t := SFmul prec emax.
Definition div : t -> t -> t := SFdiv prec emax.

  (** Go's [==] and [>] on floats: false as soon as one side is NaN, and
      the two zeros are equal. *)
Definition eqb : t -> t -> bool := SFeqb.
Definition gtb (x y : t) : bool := SFltb y x.

Definition is_nan (x : t) : bool :=
    match x with S754_nan => true | _ => false end.

  (** The binary32 value nearest to an integer, and the one nearest to a
      ratio of two such values (decimal literals such as 0.9). *)
Definition of_Z (z : Z) : t := binary_normalize prec emax z 0%Z false.
Definition of_ratio (n d : Z) : t := div (of_Z n) (of_Z d).
End F32.

Module F64.
Definition prec : Z := 53%Z.
Definition emax : Z := 1024%Z.
Definition t := spec_float.

Definition zero : t := S754_zero false.
Definition add : t -> t -> t := SFadd prec emax.
Definition mul : t -> t -> t := SFmul prec emax.

  (** The conversion [float64(x)] of a binary32 value: exact. *)
Definition of_f32 (x : F32.t) : t :=
    match x with
    | S754_finite s m e => binary_normalize prec emax (cond_Zopp s (Zpos m)) e s
    | _ => x
    end.

  (** The conversion [float32(x)]: rounds to nearest, ties to even, and
      overflows to an infinity. *)
Definition to_f32 (x : t) : F32.t :=
    match x with
    | S754_finite s m e =>
        binary_normalize F32.prec F32.emax (cond_Zopp s (Zpos m)) e s
    | _ => x
    end.

  (** [math.Pow(x, 2.0)].  For this exponent the library routine returns
      the square of [x]: NaN for NaN, +Inf for either infinity, +0 for
      either zero, and otherwise the product [x * x], which is exact when
      [x] was converted from a binary32 value (a 48-bit result). *)
Definition Pow2 (x : t) : t := mul x x.
End F64.

Abbreviation float32 := F32.t.
Abbreviation float64 := F64.t.

(** ** The vector arithmetic of [main.go] *)

(** [dotproduct]: 0 when the lengths differ, otherwise the running sum
    [dp += a[i] * b[i]] from a zero accumulator, left to right. *)
Definition dotproduct (a b : list float32) : float32 :=
  if negb (Nat.eqb (length a) (length b)) then F32.zero
  else foldl (fun dp xy => F32.add dp (F32.mul xy.1 xy.2)) F32.zero (zip a b).

(** [magnitude]: a binary64 accumulator of [math.Pow(float64(a[i]), 2.0)],
    converted to binary32 on return.  No square root is taken. *)
Definition magnitude (a : list float32) : float32 :=
  F64.to_f32
    (foldl (fun mag x => F64.add mag (F64.Pow2 (F64.of_f32 x))) F64.zero a).

(** [similarity]. *)
Definition similarity (a b : list float32) : float32 :=
  F32.div (dotproduct a b) (F32.mul (magnitude a) (magnitude b)).

(** ** Strings

    A Go string is a sequence of bytes; [string] (a list of 8-bit [ascii])
    is used for it. *)

Definition byte (c : ascii) : nat := nat_of_ascii c.

(** [strings.Split(s, sep)] for a non-empty separator: the pieces between
    the non-overlapping occurrences of [sep], found leftmost first; always
    one piece more than there are occurrences.  [skip] counts the bytes of
    the occurrence being stepped over, [cur] is the piece being built. *)
Fixpoint split_go (sep : string) (skip : nat) (cur s : string) : list string :=
  match s with
  | EmptyString => [cur]
  | String c s' =>
      match skip with
      | S k => split_go sep k cur s'
      | O =>
          if String.prefix sep s
          then cur :: split_go sep (String.length sep - 1) EmptyString s'
          else split_go sep 0 (cur +:+ String c EmptyString) s'
      end
  end.

Definition Split (s sep : string) : list string := split_go sep 0 EmptyString s.

(** The six white-space bytes of [strings.asciiSpace]. *)
Definition asciiSpace (c : ascii) : bool :=
  (Nat.leb 9 (byte c) && Nat.leb (byte c) 13) || Nat.eqb (byte c) 32.

(** [unicode.IsSpace] beyond ASCII, on the UTF-8 encoding: U+0085, U+00A0
    (two bytes) and U+1680, U+2000..U+200A, U+2028, U+2029, U+202F,
    U+205F, U+3000 (three bytes). *)
Definition space2 (b1 b2 : nat) : bool :=
  Nat.eqb b1 0xC2 && (Nat.eqb b2 0x85 || Nat.eqb b2 0xA0).

Definition space3 (b1 b2 b3 : nat) : bool :=
  (Nat.eqb b1 0xE1 && Nat.eqb b2 0x9A && Nat.eqb b3 0x80)
  || (Nat.eqb b1 0xE2 && Nat.eqb b2 0x80
      && ((Nat.leb 0x80 b3 && Nat.leb b3 0x8A)
          || Nat.eqb b3 0xA8 || Nat.eqb b3 0xA9 || Nat.eqb b3 0xAF))
  || (Nat.eqb b1 0xE2 && Nat.eqb b2 0x81 && Nat.eqb b3 0x9F)
  || (Nat.eqb b1 0xE3 && Nat.eqb b2 0x80 && Nat.eqb b3 0x80).

(** Width in bytes of the white-space rune a string starts with, 0 when
    it starts with anything else (or is empty). *)
Definition leading_space (s : string) : nat :=
  match s with
  | String c1 (String c2 (String c3 _)) =>
      if asciiSpace c1 then 1
      else if space2 (byte c1) (byte c2) then 2
      else if space3 (byte c1) (byte c2) (byte c3) then 3 else 0
  | String c1 (String c2 _) =>
      if asciiSpace c1 then 1
      else if space2 (byte c1) (byte c2) then 2 else 0
  | String c1 _ => if asciiSpace c1 then 1 else 0
  | EmptyString => 0
  end.

(** The same for the last rune, read off the reversed string. *)
Definition trailing_space (r : string) : nat :=
  match r with
  | String c3 (String c2 (String c1 _)) =>
      if asciiSpace c3 then 1
      else if space2 (byte c2) (byte c3) then 2
      else if space3 (byte c1) (byte c2) (byte c3) then 3 else 0
  | String c2 (String c1 _) =>
      if asciiSpace c2 then 1
      else if space2 (byte c1) (byte c2) then 2 else 0
  | String c1 _ => if asciiSpace c1 then 1 else 0
  | EmptyString => 0
  end.

Fixpoint sdrop (n : nat) (s : string) : string :=
  match n, s with
  | S k, String _ s' => sdrop k s'
  | _, _ => s
  end.

Fixpoint trim_with (width : string -> nat) (fuel : nat) (s : string) : string :=
  match fuel with
  | O => s
  | S f =>
      match width s with
      | O => s
      | w => trim_with width f (sdrop w s)
      end
  end.

(** [strings.TrimSpace]: white-space runes are cut from the front, then
    from the back. *)
Definition TrimSpace (s : string) : string :=
  let l := trim_with leading_space (String.length s) s in
  String.rev (trim_with trailing_space (String.length l) (String.rev l)).

(** [strings.Join]. *)
Fixpoint Join (elems : list string) (sep : string) : string :=
  match elems with
  | [] => EmptyString
  | [x] => x
  | x :: rest => x +:+ sep +:+ Join rest sep
  end.

Definition nl : string := String (ascii_of_nat 10) EmptyString.
Definition tab : string := String (ascii_of_nat 9) EmptyString.

(** ** The chunker *)

(** [removeDuplicates]: [m] is the map of the strings met so far. *)
Definition removeDuplicates (s : list string) : list string :=
  (foldl (fun (st : gmap string bool * list string) item =>
            match st.1 !! item with
            | None => (<[item := true]> st.1, st.2 ++ [item])
            | Some _ => st
            end) (∅, []) s).2.

(** [removeShortStrings]: keeps a string when splitting it on one space
    gives more than three pieces. *)
Definition removeShortStrings (slice : list string) : list string :=
  foldl (fun result str =>
           let sl := Split str " " in
           if Nat.ltb 3 (length sl) then result ++ [str] else result) [] slice.

(** [clean]. *)
Definition clean (content : string) : list string :=
  let split := Split content (nl +:+ nl) in
  let cleaned := foldl (fun cleaned s => cleaned ++ [TrimSpace s]) [] split in
  let unique := removeDuplicates cleaned in
  let shortRemoved := removeShortStrings unique in
  shortRemoved.

(** ** Program state and control

    The program owns one global, [vdb], and one file, [vdb.gob].  A
    statement either completes or raises a run-time panic, which unwinds
    the whole program: the state reached so far is kept in both cases. *)

Record VectorDocument := {
  Embedding : list float32;
  Content : string
}.

(** What a fresh gob decoder makes of the file: a record sequence, or an
    error (an empty or damaged file).  An encoder writes from offset 0 and
    the file is opened without truncation, so bytes of a longer earlier
    file may remain behind the new stream; the single [Decode] of
    [loadVdb] never reaches them. *)
Inductive snapshot :=
  | Encoded (docs : list VectorDocument)
  | Undecodable.

Record World := {
  vdb : list VectorDocument;   (* the global [vdb] *)
  vdb_gob : option snapshot;   (* the file; [None]: no such file *)
  fs_ok : bool;                (* [false]: opening the file fails *)
  logged : list string;        (* lines written with [log] *)
  asked : list (string * string * string)  (* requests to the generator *)
}.

Definition set_vdb (v : list VectorDocument) (w : World) : World :=
  {| vdb := v; vdb_gob := vdb_gob w; fs_ok := fs_ok w;
     logged := logged w; asked := asked w |}.
Definition set_vdb_gob (f : option snapshot) (w : World) : World :=
  {| vdb := vdb w; vdb_gob := f; fs_ok := fs_ok w;
     logged := logged w; asked := asked w |}.
Definition add_logged (msg : string) (w : World) : World :=
  {| vdb := vdb w; vdb_gob := vdb_gob w; fs_ok := fs_ok w;
     logged := logged w ++ [msg]; asked := asked w |}.
Definition add_asked (r : string * string * string) (w : World) : World :=
  {| vdb := vdb w; vdb_gob := vdb_gob w; fs_ok := fs_ok w;
     logged := logged w; asked := asked w ++ [r] |}.

Inductive outcome (A : Type) : Type :=
  | Returned (a : A)
  | Panicked (why : string).
Arguments Returned {A} a.
Arguments Panicked {A} why.

Definition Go (A : Type) : Type := World -> outcome A * World.

Global Instance Go_ret : MRet Go := fun A a w => (Returned a, w).
Global Instance Go_bind : MBind Go := fun A B f m w =>
  match m w with
  | (Returned a, w') => f a w'
  | (Panicked why, w') => (Panicked why, w')
  end.

Definition panic {A} (why : string) : Go A := fun w => (Panicked why, w).
Definition get_vdb : Go (list VectorDocument) := fun w => (Returned (vdb w), w).
Definition put_vdb (v : list VectorDocument) : Go unit :=
  fun w => (Returned tt, set_vdb v w).
Definition log (msg : string) : Go unit := fun w => (Returned tt, add_logged msg w).

(** [l[i]] on a slice. *)
Definition index {A} (l : list A) (i : nat) : Go A :=
  match l !! i with
  | Some x => mret x
  | None => panic "index out of range"
  end.

(** [l[:n]] on a slice whose capacity is its length. *)
Definition slice_to {A} (l : list A) (n : nat) : Go (list A) :=
  if Nat.leb n (length l) then mret (take n l)
  else panic "slice bounds out of range".

(** [for i, x := range l { body }], threading a loop-carried value. *)
Fixpoint for_range {A St} (body : St -> nat -> A -> Go St) (i : nat)
    (l : list A) (s : St) : Go St :=
  match l with
  | [] => mret s
  | x :: l' => s' ← body s i x; for_range body (S i) l' s'
  end.

(** ** The file *)

(** [os.OpenFile("vdb.gob", O_RDWR|O_CREATE, 0666)]: creates an empty file
    when there is none.  The result tells whether a handle was obtained. *)
Definition OpenFile_create : Go bool := fun w =>
  if fs_ok w then
    (Returned true,
     match vdb_gob w with
     | None => set_vdb_gob (Some Undecodable) w
     | Some _ => w
     end)
  else (Returned false, w).

(** [os.Open("vdb.gob")]. *)
Definition Open : Go (option snapshot) := fun w =>
  (Returned (if fs_ok w then vdb_gob w else None), w).

(** [gob.NewEncoder(file).Encode(v)]: fails on a nil handle. *)
Definition Encode (file : bool) (v : list VectorDocument) : Go bool := fun w =>
  if file then (Returned true, set_vdb_gob (Some (Encoded v)) w)
  else (Returned false, w).

(** [gob.NewDecoder(file).Decode(&vdb)]: on success the decoded sequence
    is stored in [vdb] (the program decodes into the empty [vdb] of a
    fresh process, or over the very sequence it has just encoded); a
    decode that fails is taken to leave [vdb] as it was. *)
Definition Decode_vdb (file : snapshot) : Go bool :=
  match file with
  | Encoded docs => put_vdb docs ;; mret true
  | Undecodable => mret false
  end.

(** ** The embedder and the generator *)

(** The two calls made on the Ollama client: [ollama.New], which may fail,
    and [CreateEmbedding], which returns a batch of vectors and possibly
    an error. *)
Record Ollama := {
  New_err : option string;
  CreateEmbedding : list string -> list (list float32) * option string
}.

(** [getEmbeddings]. *)
Definition getEmbeddings (llm : Ollama) (content : list string)
    : list (list float32) * option string :=
  match New_err llm with
  | Some err => ([], Some err)
  | None => CreateEmbedding llm content
  end.

(** [call]: the context and the question go to the generator.  The answer
    it streams does not touch the store; only the request is recorded. *)
Definition call (model doc question : string) : Go unit :=
  fun w => (Returned tt, add_asked (model, doc, question) w).

(** ** The store operations *)

(** [addVectorDocuments]. *)
Definition addVectorDocuments (llm : Ollama) (content : list string) : Go unit :=
  file ← OpenFile_create;
  (if file : bool then mret tt else log "cannot open gob file:") ;;
  let '(embeddings, err) := getEmbeddings llm content in
  (if err is Some _ then log "cannot get embeddings" else mret tt) ;;
  for_range (fun _ i c =>
               e ← index embeddings i;
               v ← get_vdb;
               put_vdb (v ++ [{| Embedding := e; Content := c |}]))
            0 content tt ;;
  v ← get_vdb;
  saved ← Encode file v;
  if saved : bool then mret tt else log "cannot save vdb to file".

(** [loadVdb]. *)
Definition loadVdb : Go unit :=
  file ← Open;
  match file with
  | None => log "Error opening file:"
  | Some f =>
      decoded ← Decode_vdb f;
      if decoded : bool then log "loaded %d records into vdb"
      else log "Error decoding:"
  end.

(** ** Retrieval *)

(** [map[float32]string].  Keys are compared with [==], so a NaN key never
    matches an entry (each assignment under NaN adds one) and is never
    found again, while the two zeros share an entry.  Entries are kept in
    order of first assignment. *)
Definition score_map := list (float32 * string).

(** [m[k] = v]. *)
Fixpoint map_assign (m : score_map) (k : float32) (v : string) : score_map :=
  match m with
  | [] => [(k, v)]
  | (k', v') :: m' =>
      if F32.eqb k' k then (k, v) :: m' else (k', v') :: map_assign m' k v
  end.

(** [m[k]], the empty string when there is no such key. *)
Fixpoint map_index (m : score_map) (k : float32) : string :=
  match m with
  | [] => EmptyString
  | (k', v') :: m' => if F32.eqb k' k then v' else map_index m' k
  end.

(** [for k := range m { keys = append(keys, k) }].  Go leaves the order of
    the iteration open; the order of first assignment is taken here.  The
    sort that follows makes the choice immaterial when no key is NaN
    (lemma [sort_desc_order_irrelevant] below). *)
Definition map_keys (m : score_map) : list float32 := m.*1.

(** [sort.Slice(keys, func(i, j) bool { return keys[i] > keys[j] })], as an
    insertion sort under the same comparison.  On keys without NaN every
    sorting routine gives this result ([sort_desc_order_irrelevant]). *)
Fixpoint insert_desc (x : float32) (l : list float32) : list float32 :=
  match l with
  | [] => [x]
  | y :: l' => if F32.gtb x y then x :: l else y :: insert_desc x l'
  end.

Definition sort_desc (keys : list float32) : list float32 :=
  foldr insert_desc [] keys.

(** [getSimilarChunks]. *)
Definition getSimilarChunks (llm : Ollama) (question : string) : Go (list string) :=
  let embedding := (getEmbeddings llm [question]).1 in
  docs ← get_vdb;
  chunks ← for_range (fun (chunks : score_map) _ doc =>
                        q ← index embedding 0;
                        let sim := similarity q (Embedding doc) in
                        mret (map_assign chunks sim (Content doc)))
                     0 docs [];
  let keys := sort_desc (map_keys chunks) in
  top ← slice_to keys 3;
  mret (foldl (fun topChunks key => topChunks ++ [map_index chunks key]) [] top).

(** ** The command line *)

(** [main], with [convert] (the PDF to text step) given by its results.
    The Ollama server that [main] starts in the background is the [llm]
    the calls are made on. *)
Definition main (convert : string -> string * option string) (llm : Ollama)
    (Args : list string) : Go unit :=
  verb ← index Args 1;
  (if String.eqb verb "add" then
     path ← index Args 2;
     log "adding document:" ;;
     addVectorDocuments llm (clean (convert path).1)
   else mret tt) ;;
  if String.eqb verb "call" then
    log "calling model with document" ;;
    loadVdb ;;
    question ← index Args 2;
    chunks ← getSimilarChunks llm question;
    call "llama2" (Join chunks nl) question
  else mret tt.

(** ** Definitions used to state the properties *)

(** The state a process starts in: an empty [vdb], nothing logged, and
    the file in a given condition. *)
Definition boot (file : option snapshot) : World :=
  {| vdb := []; vdb_gob := file; fs_ok := true; logged := []; asked := [] |}.

(** An embedder that answers every request with the same batch. *)
Definition const_llm (embs : list (list float32)) : Ollama :=
  {| New_err := None; CreateEmbedding := fun _ => (embs, None) |}.

(** An embedder whose client cannot be created. *)
Definition down_llm : Ollama :=
  {| New_err := Some "connection refused";
     CreateEmbedding := fun _ => ([], None) |}.

(** The sum of the element-wise products and the sum of the squares, as
    the specification words them. *)
Definition spec_dot (a b : list float32) : float32 :=
  foldl F32.add F32.zero (zip_with F32.mul a b).

Definition spec_sumsq (v : list float32) : float32 :=
  F64.to_f32
    (foldl F64.add F64.zero ((fun x => F64.mul (F64.of_f32 x) (F64.of_f32 x)) <$> v)).

(** The map built by the first loop of [getSimilarChunks] for a query
    vector [q]. *)
Definition score_all (q : list float32) (docs : list VectorDocument) : score_map :=
  foldl (fun chunks doc =>
           map_assign chunks (similarity q (Embedding doc)) (Content doc))
        [] docs.

(** The trimmed candidate segments of a document, in order, and those of
    them that survive the removal of duplicates. *)
Definition segments (content : string) : list string :=
  TrimSpace <$> Split content (nl +:+ nl).

Definition unique_segments (content : string) : list string :=
  removeDuplicates (segments content).

(** The number of white-space delimited tokens of a string, as the
    specification counts them. *)
Definition token_count (s : string) : nat := length (String.words s).

(** The number of space bytes (0x20) of a string. *)
Fixpoint space_count (s : string) : nat :=
  match s with
  | EmptyString => 0
  | String c s' => (if Ascii.eqb c " " then 1 else 0) + space_count s'
  end.

(** The first occurrences of a list, in order: each element is kept and
    its later copies are struck out. *)
Fixpoint nub (l : list string) : list string :=
  match l with
  | [] => []
  | x :: l' => x :: filter (fun y => y <> x) (nub l')
  end.

(** The records one call of [addVectorDocuments] makes: chunk [i] paired
    with embedding [i], as far as both exist. *)
Definition new_records (embeddings : list (list float32)) (content : list string)
    : list VectorDocument :=
  zip_with Build_VectorDocument embeddings content.

(** The program's similarity of a record to a query vector. *)
Definition score (q : list float32) (d : VectorDocument) : float32 :=
  similarity q (Embedding d).

(** Keys no two of which are equal under [==], and descending order. *)
Inductive Distinct : list float32 -> Prop :=
  | Distinct_nil : Distinct []
  | Distinct_cons (x : float32) (l : list float32) :
      Forall (fun y => F32.eqb x y = false) l -> Distinct l -> Distinct (x :: l).

Definition desc (x y : float32) : Prop := F32.gtb x y = true.

(** The records of the end-to-end scenario. *)
Definition v10 : list float32 := [F32.of_Z 1; F32.of_Z 0].
Definition v01 : list float32 := [F32.of_Z 0; F32.of_Z 1].
Definition v91 : list float32 := [F32.of_ratio 9 10; F32.of_ratio 1 10].
Definition docA := {| Embedding := v10; Content := "A" |}.
Definition docB := {| Embedding := v01; Content := "B" |}.
Definition docC := {| Embedding := v91; Content := "C" |}.

(** The scenario store. *)
Definition scenario : World := set_vdb [docA; docB; docC] (boot None).

(** Three different records, each orthogonal to the query (1, 0). *)
Definition triplet : World :=
  set_vdb [ {| Embedding := [F32.of_Z 0; F32.of_Z 1]; Content := "one" |};
            {| Embedding := [F32.of_Z 0; F32.of_Z 2]; Content := "two" |};
            {| Embedding := [F32.of_Z 0; F32.of_Z 3]; Content := "three" |} ]
          (boot None).

(** The state after the [OpenFile] step and after the embedding step of
    [addVectorDocuments]. *)
Definition after_open (w : World) : World :=
  if fs_ok w then
    match vdb_gob w with
    | None => set_vdb_gob (Some Undecodable) w
    | Some _ => w
    end
  else add_logged "cannot open gob file:" w.

Definition after_embed (err : option string) (w : World) : World :=
  match err with
  | Some _ => add_logged "cannot get embeddings" w
  | None => w
  end.

(** A value that is not negative and not the negative zero: NaN, or a
    value whose sign bit is clear. *)
Definition sign_clear (x : spec_float) : Prop :=
  match x with
  | S754_nan => True
  | S754_zero s | S754_infinity s | S754_finite s _ _ => s = false
  end.

(** A zero of either sign, or NaN. *)
Definition zero_or_nan (x : spec_float) : Prop :=
  match x with
  | S754_zero _ | S754_nan => True
  | _ => False
  end.

(** * Properties *)

(** ** Similarity *)

Lemma foldl_zip_with_mul (a b : list float32) (acc : float32) :
  foldl (fun dp xy => F32.add dp (F32.mul xy.1 xy.2)) acc (zip a b)
  = foldl F32.add acc (zip_with F32.mul a b).
Proof.
  revert b acc. induction a as [|x a IH]; intros [|y b] acc; simpl; auto.
Qed.

Lemma foldl_squares (v : list float32) (acc : float64) :
  foldl (fun mag x => F64.add mag (F64.Pow2 (F64.of_f32 x))) acc v
  = foldl F64.add acc ((fun x => F64.mul (F64.of_f32 x) (F64.of_f32 x)) <$> v).
Proof.
  revert acc. induction v as [|x v IH]; intros acc; simpl; auto.
Qed.

Lemma magnitude_sumsq (v : list float32) : magnitude v = spec_sumsq v.
Proof. unfold magnitude, spec_sumsq. by rewrite foldl_squares. Qed.

Lemma dotproduct_same_length (a b : list float32) :
  length a = length b -> dotproduct a b = spec_dot a b.
Proof.
  intros Hlen. unfold dotproduct, spec_dot.
  rewrite Hlen, Nat.eqb_refl. simpl. apply foldl_zip_with_mul.
Qed.

(** The denominator really is the sum of squares: the vector (3, 4), of
    Euclidean norm 5, has "magnitude" 25. *)
Example magnitude_3_4 : magnitude [F32.of_Z 3; F32.of_Z 4] = F32.of_Z 25.
Proof. vm_compute. reflexivity. Qed.

(** C2: for vectors [a] and [b] of equal length, [similarity a b] is the
    sum of the element-wise products divided by the product of the two
    sums of squares; no square root enters the denominator. *)
Theorem similarity_is_dot_over_sumsq (a b : list float32) :
  length a = length b ->
  similarity a b = F32.div (spec_dot a b) (F32.mul (spec_sumsq a) (spec_sumsq b)).
Proof.
  intros Hlen. unfold similarity.
  by rewrite dotproduct_same_length, !magnitude_sumsq.
Qed.

Lemma similarity_is_dot_over_sumsq_witness :
  similarity v10 v91
  = F32.div (spec_dot v10 v91) (F32.mul (spec_sumsq v10) (spec_sumsq v91)).
Proof. apply similarity_is_dot_over_sumsq. reflexivity. Defined.

(** ** The order of binary32 values

    [F32.gtb] is a strict order and [F32.eqb] an equivalence on the values
    that are not NaN, and any two such values are comparable. *)

Ltac order_cases :=
  change (PosDef.Pos.compare_cont Eq) with Pos.compare in *;
  repeat match goal with
  | |- context [Z.compare ?a ?b] => destruct (Z.compare_spec a b)
  | |- context [Pos.compare ?a ?b] => destruct (Pos.compare_spec a b)
  | H : context [Z.compare ?a ?b] |- _ => destruct (Z.compare_spec a b)
  | H : context [Pos.compare ?a ?b] |- _ => destruct (Pos.compare_spec a b)
  end; simpl in *; try discriminate; try reflexivity; try lia.

Ltac float_cases x y z :=
  destruct x as [[]|[]| |[] ? ?], y as [[]|[]| |[] ? ?], z as [[]|[]| |[] ? ?];
  simpl; try discriminate; try reflexivity; intros; order_cases.

Lemma SFcompare_antisym (x y : spec_float) (c : comparison) :
  SFcompare x y = Some c -> SFcompare y x = Some (CompOpp c).
Proof.
  destruct x as [[]|[]| |[] m1 e1], y as [[]|[]| |[] m2 e2]; simpl;
    intros H; try discriminate; injection H as <-; try reflexivity;
    f_equal; order_cases.
Qed.

Lemma SFcompare_not_nan (x y : spec_float) :
  F32.is_nan x = false -> F32.is_nan y = false -> exists c, SFcompare x y = Some c.
Proof. destruct x, y; simpl; intros; try discriminate; eauto. Qed.

Lemma gtb_trans (x y z : float32) :
  F32.gtb x y = true -> F32.gtb y z = true -> F32.gtb x z = true.
Proof. unfold F32.gtb, SFltb. float_cases x y z. Qed.

Lemma eqb_trans (x y z : float32) :
  F32.eqb x y = true -> F32.eqb y z = true -> F32.eqb x z = true.
Proof. unfold F32.eqb, SFeqb. float_cases x y z. Qed.

Lemma gtb_eqb_l (x y z : float32) :
  F32.eqb x y = true -> F32.gtb x z = true -> F32.gtb y z = true.
Proof. unfold F32.eqb, F32.gtb, SFeqb, SFltb. float_cases x y z. Qed.

Lemma gtb_eqb_r (x y z : float32) :
  F32.eqb x y = true -> F32.gtb z x = true -> F32.gtb z y = true.
Proof. unfold F32.eqb, F32.gtb, SFeqb, SFltb. float_cases x y z. Qed.

Lemma eqb_sym (x y : float32) : F32.eqb x y = F32.eqb y x.
Proof.
  unfold F32.eqb, SFeqb.
  destruct (SFcompare x y) as [c|] eqn:Hxy.
  - rewrite (SFcompare_antisym _ _ _ Hxy). by destruct c.
  - destruct (SFcompare y x) as [c|] eqn:Hyx; [|done].
    apply SFcompare_antisym in Hyx. congruence.
Qed.

Lemma eqb_refl (x : float32) : F32.is_nan x = false -> F32.eqb x x = true.
Proof.
  unfold F32.eqb, SFeqb.
  destruct x as [[]|[]| |[] m e]; simpl; try discriminate; try reflexivity;
    intros _; rewrite Z.compare_refl;
    change (PosDef.Pos.compare_cont Eq) with Pos.compare;
    by rewrite Pos.compare_refl.
Qed.

Lemma gtb_asym (x y : float32) : F32.gtb x y = true -> F32.gtb y x = false.
Proof.
  unfold F32.gtb, SFltb. intros H.
  destruct (SFcompare y x) as [c|] eqn:Hyx; [|done].
  rewrite (SFcompare_antisym _ _ _ Hyx). by destruct c.
Qed.

Lemma gtb_not_eqb (x y : float32) : F32.gtb x y = true -> F32.eqb x y = false.
Proof.
  rewrite eqb_sym. unfold F32.gtb, F32.eqb, SFltb, SFeqb.
  by destruct (SFcompare y x) as [[]|].
Qed.

Lemma gtb_total (x y : float32) :
  F32.is_nan x = false -> F32.is_nan y = false ->
  F32.gtb x y = true \/ F32.eqb x y = true \/ F32.gtb y x = true.
Proof.
  intros Hx Hy. destruct (SFcompare_not_nan x y Hx Hy) as [c Hc].
  unfold F32.gtb, F32.eqb, SFltb, SFeqb.
  rewrite (SFcompare_antisym _ _ _ Hc), Hc. destruct c; auto.
Qed.

(** ** Retrieval *)

Lemma insert_desc_length (x : float32) (l : list float32) :
  length (insert_desc x l) = S (length l).
Proof.
  induction l as [|y l IH]; simpl; [done|].
  destruct (F32.gtb x y); simpl; [done|]. by rewrite IH.
Qed.

Lemma sort_desc_length (l : list float32) : length (sort_desc l) = length l.
Proof.
  induction l as [|x l IH]; simpl; [done|].
  by rewrite insert_desc_length, IH.
Qed.

Lemma map_assign_length (m : score_map) (k : float32) (v : string) :
  length (map_assign m k v) <= S (length m).
Proof.
  induction m as [|[k' v'] m IH]; simpl; [lia|].
  destruct (F32.eqb k' k); simpl; lia.
Qed.

Lemma foldl_map_assign_length (q : list float32) (docs : list VectorDocument)
    (acc : score_map) :
  length (foldl (fun chunks doc =>
                   map_assign chunks (similarity q (Embedding doc)) (Content doc))
                acc docs)
  <= length acc + length docs.
Proof.
  revert acc. induction docs as [|d docs IH]; intros acc; simpl; [lia|].
  etrans; [apply IH|].
  pose proof (map_assign_length acc (similarity q (Embedding d)) (Content d)).
  lia.
Qed.

(** A map never has more entries than there are records. *)
Lemma score_all_length (q : list float32) (docs : list VectorDocument) :
  length (score_all q docs) <= length docs.
Proof. apply (foldl_map_assign_length q docs []). Qed.

(** The first loop, when the embedder returned at least one vector. *)
Lemma scoring_loop (embedding : list (list float32)) (q : list float32)
    (docs : list VectorDocument) (i : nat) (acc : score_map) (w : World) :
  embedding !! 0 = Some q ->
  for_range (fun (chunks : score_map) (_ : nat) doc =>
               q ← index embedding 0;
               mret (map_assign chunks (similarity q (Embedding doc)) (Content doc)))
            i docs acc w
  = (Returned (foldl (fun chunks doc =>
                        map_assign chunks (similarity q (Embedding doc)) (Content doc))
                     acc docs), w).
Proof.
  intros Hq. revert i acc.
  induction docs as [|d docs IH]; intros i acc; simpl; [done|].
  unfold mbind, Go_bind, index at 1. rewrite Hq. simpl. apply IH.
Qed.

(** The first loop, when the embedder returned no vector. *)
Lemma scoring_loop_no_query (docs : list VectorDocument) (i : nat)
    (acc : score_map) (w : World) :
  for_range (fun (chunks : score_map) (_ : nat) doc =>
               q ← index (@nil (list float32)) 0;
               mret (map_assign chunks (similarity q (Embedding doc)) (Content doc)))
            i docs acc w
  = match docs with
    | [] => (Returned acc, w)
    | _ :: _ => (Panicked "index out of range", w)
    end.
Proof. by destruct docs. Qed.

Lemma foldl_snoc_map {A B} (f : A -> B) (l : list A) (acc : list B) :
  foldl (fun out x => out ++ [f x]) acc l = acc ++ (f <$> l).
Proof.
  revert acc. induction l as [|x l IH]; intros acc; simpl.
  - by rewrite app_nil_r.
  - rewrite IH. by rewrite <- app_assoc.
Qed.

(** [getSimilarChunks] in closed form, for a query vector [q]. *)
Lemma getSimilarChunks_query (llm : Ollama) (question : string)
    (q : list float32) (w : World) :
  (getEmbeddings llm [question]).1 !! 0 = Some q ->
  getSimilarChunks llm question w
  = (let chunks := score_all q (vdb w) in
     if Nat.leb 3 (length chunks)
     then Returned (map_index chunks <$> take 3 (sort_desc (map_keys chunks)))
     else Panicked "slice bounds out of range", w).
Proof.
  intros Hq. unfold getSimilarChunks, get_vdb.
  unfold mbind at 1, Go_bind at 1.
  unfold mbind at 1, Go_bind at 1.
  rewrite (scoring_loop _ q); [|done]. fold (score_all q (vdb w)).
  unfold mbind, Go_bind, slice_to, map_keys.
  rewrite sort_desc_length, length_fmap.
  destruct (Nat.leb 3 (length (score_all q (vdb w)))); simpl; [|done].
  unfold mret, Go_ret. by rewrite foldl_snoc_map.
Qed.

(** With fewer than three records the slice expression [keys[:3]] is out
    of range, whatever the embedder answered. *)
Lemma getSimilarChunks_small_store (llm : Ollama) (question : string) (w : World) :
  length (vdb w) < 3 ->
  exists why, getSimilarChunks llm question w = (Panicked why, w).
Proof.
  intros Hlen.
  destruct ((getEmbeddings llm [question]).1) as [|q rest] eqn:Hemb.
  - unfold getSimilarChunks, get_vdb. rewrite Hemb.
    unfold mbind at 1, Go_bind at 1.
    unfold mbind at 1, Go_bind at 1.
    rewrite scoring_loop_no_query.
    destruct (vdb w); eexists; reflexivity.
  - rewrite (getSimilarChunks_query llm question q); [|by rewrite Hemb].
    pose proof (score_all_length q (vdb w)) as Hle. cbv zeta.
    destruct (Nat.leb_spec 3 (length (score_all q (vdb w)))); [lia|].
    eexists; reflexivity.
Qed.

(** What the code computes for the scenario: the similarity of (1, 0) to
    (0.9, 0.1) is 0.9 / (1 * 0.82), which exceeds the 1 / (1 * 1) of (1, 0)
    to itself. *)
Lemma scenario_scores :
  F32.gtb (similarity v10 v91) (similarity v10 v10) = true
  /\ F32.gtb (similarity v10 v10) (similarity v10 v01) = true.
Proof. split; vm_compute; reflexivity. Qed.

Lemma scenario_result :
  (getSimilarChunks (const_llm [v10]) "q" scenario).1 = Returned ["C"; "A"; "B"].
Proof. vm_compute. reflexivity. Qed.

(** C1, as stated, fails: on the scenario store the answer for the query
    (1, 0) is not ["A"; "C"]. *)
Lemma scenario_not_A_C :
  (getSimilarChunks (const_llm [v10]) "q" scenario).1 <> Returned ["A"; "C"].
Proof. rewrite scenario_result. discriminate. Qed.

(** C1, amended: on the scenario store and for a query embedded as (1, 0),
    retrieval (whose k is fixed at 3) returns three contents, those of the
    three records, in descending order of the program's similarity to the
    query, with "B" last. *)
Theorem scenario_top3 (llm : Ollama) (question : string) (w : World) :
  vdb w = [docA; docB; docC] ->
  (getEmbeddings llm [question]).1 !! 0 = Some v10 ->
  exists d1 d2 d3,
    (getSimilarChunks llm question w).1
    = Returned [Content d1; Content d2; Content d3]
    /\ [d1; d2; d3] ≡ₚ [docA; docB; docC]
    /\ F32.gtb (similarity v10 (Embedding d1)) (similarity v10 (Embedding d2)) = true
    /\ F32.gtb (similarity v10 (Embedding d2)) (similarity v10 (Embedding d3)) = true
    /\ Content d3 = "B".
Proof.
  intros Hvdb Hq. exists docC, docA, docB.
  rewrite (getSimilarChunks_query llm question v10 w Hq), Hvdb.
  split; [vm_compute; reflexivity|].
  split; [|split; [|split]]; try (vm_compute; reflexivity).
  etrans; [apply Permutation_swap|]. apply perm_skip, Permutation_swap.
Qed.

Lemma scenario_top3_witness :
  exists d1 d2 d3,
    (getSimilarChunks (const_llm [v10]) "q" scenario).1
    = Returned [Content d1; Content d2; Content d3]
    /\ [d1; d2; d3] ≡ₚ [docA; docB; docC]
    /\ F32.gtb (similarity v10 (Embedding d1)) (similarity v10 (Embedding d2)) = true
    /\ F32.gtb (similarity v10 (Embedding d2)) (similarity v10 (Embedding d3)) = true
    /\ Content d3 = "B".
Proof. apply scenario_top3; reflexivity. Defined.

(** C3, as stated, fails: with the two records A and B in the store the
    retrieval does not return their contents, it panics. *)
Lemma two_records_panic :
  let w := set_vdb [docA; docB] (boot None) in
  length (vdb w) < 3
  /\ (getSimilarChunks (const_llm [v10]) "q" w).1
     = Panicked "slice bounds out of range"
  /\ (getSimilarChunks (const_llm [v10]) "q" w).1 <> Returned ["A"; "B"].
Proof.
  split; [simpl; lia|].
  assert ((getSimilarChunks (const_llm [v10]) "q" (set_vdb [docA; docB] (boot None))).1
          = Panicked "slice bounds out of range") as H
    by (vm_compute; reflexivity).
  split; [exact H|]. cbv zeta. rewrite H. discriminate.
Qed.

(** C3, amended: on a store of fewer than three records the retrieval
    fails with a run-time panic, for every state of the embedder, and
    leaves the state as it was; when the embedder returned a query vector
    the panic is the one of the slice expression [keys[:3]]. *)
Theorem retrieval_panics_below_three (llm : Ollama) (question : string) (w : World) :
  length (vdb w) < 3 ->
  (exists why, getSimilarChunks llm question w = (Panicked why, w))
  /\ (forall q, (getEmbeddings llm [question]).1 !! 0 = Some q ->
        getSimilarChunks llm question w = (Panicked "slice bounds out of range", w)).
Proof.
  intros Hlen. split; [by apply getSimilarChunks_small_store|].
  intros q Hq. rewrite (getSimilarChunks_query llm question q w Hq). cbv zeta.
  pose proof (score_all_length q (vdb w)) as Hle.
  destruct (Nat.leb_spec 3 (length (score_all q (vdb w)))); [lia|done].
Qed.

Lemma retrieval_panics_below_three_witness :
  let w := set_vdb [docA; docB] (boot None) in
  (exists why, getSimilarChunks (const_llm [v10]) "q" w = (Panicked why, w))
  /\ (forall q, (getEmbeddings (const_llm [v10]) ["q"]).1 !! 0 = Some q ->
        getSimilarChunks (const_llm [v10]) "q" w
        = (Panicked "slice bounds out of range", w)).
Proof. apply retrieval_panics_below_three. simpl. lia. Defined.

(** C4 at a store of three records that score alike: the three
    similarities (all 0) fall on one key of the map, [keys] has one
    element, and the retrieval panics instead of returning three
    contents. *)
Theorem equal_scores_panic :
  length (vdb triplet) = 3
  /\ score_all v10 (vdb triplet) = [(F32.zero, "three")]
  /\ (getSimilarChunks (const_llm [v10]) "q" triplet).1
     = Panicked "slice bounds out of range".
Proof. repeat split; vm_compute; reflexivity. Qed.

(** ** The chunker *)

Section filter_facts.
Context {A : Type} (P : A -> Prop) `{!forall x, Decision (P x)}.

  (** An element of a filtered list sits at a definite place of the
      original, between the parts that gave its two sides. *)
Lemma filter_split (l l1 l2 : list A) (x : A) :
    filter P l = l1 ++ x :: l2 ->
    exists m1 m2, l = m1 ++ x :: m2 /\ filter P m1 = l1 /\ filter P m2 = l2 /\ P x.
  Proof.
    revert l1. induction l as [|a l IH]; intros l1 Hf.
    - rewrite filter_nil in Hf. by destruct l1.
    - rewrite filter_cons in Hf. destruct (decide (P a)) as [Ha|Ha].
      + destruct l1 as [|b l1]; simplify_eq/=.
        * exists [], l. by rewrite filter_nil.
        * destruct (IH l1) as (m1 & m2 & -> & <- & <- & Hx); [done|].
          exists (b :: m1), m2. by rewrite filter_cons_True.
      + destruct (IH l1 Hf) as (m1 & m2 & -> & <- & <- & Hx).
        exists (a :: m1), m2. by rewrite filter_cons_False.
  Qed.
End filter_facts.

Lemma removeShortStrings_from (slice result : list string) :
  foldl (fun result str =>
           let sl := Split str " " in
           if Nat.ltb 3 (length sl) then result ++ [str] else result)
        result slice
  = result ++ filter (fun s => 3 < length (Split s " ")) slice.
Proof.
  revert result. induction slice as [|x slice IH]; intros result; simpl.
  - by rewrite app_nil_r.
  - rewrite IH, filter_cons.
    destruct (Nat.ltb_spec 3 (length (Split x " "))),
             (decide (3 < length (Split x " "))); try lia; [|done].
    by rewrite <- app_assoc.
Qed.

Lemma removeShortStrings_filter (slice : list string) :
  removeShortStrings slice = filter (fun s => 3 < length (Split s " ")) slice.
Proof. apply (removeShortStrings_from slice []). Qed.

Lemma removeDuplicates_from (l : list string) (m : gmap string bool)
    (result : list string) :
  (foldl (fun (st : gmap string bool * list string) item =>
            match st.1 !! item with
            | None => (<[item := true]> st.1, st.2 ++ [item])
            | Some _ => st
            end) (m, result) l).2
  = result ++ filter (fun x => m !! x = None) (nub l).
Proof.
  revert m result. induction l as [|x l IH]; intros m result; simpl.
  - by rewrite app_nil_r.
  - destruct (m !! x) eqn:Hx; simpl.
    + rewrite IH. f_equal.
      rewrite filter_cons_False by congruence.
      symmetry. apply list_filter_filter_l. congruence.
    + rewrite IH, <- app_assoc. simpl. f_equal.
      rewrite filter_cons_True by done. f_equal.
      rewrite list_filter_filter. apply list_filter_iff. intros y.
      rewrite lookup_insert_None. intuition congruence.
Qed.

Lemma removeDuplicates_nub (l : list string) : removeDuplicates l = nub l.
Proof.
  unfold removeDuplicates. rewrite removeDuplicates_from. simpl.
  induction (nub l) as [|x r IH]; [done|].
  rewrite filter_cons_True by apply lookup_empty. by rewrite IH.
Qed.

Lemma elem_of_nub (l : list string) (x : string) : x ∈ nub l <-> x ∈ l.
Proof.
  induction l as [|a l IH]; simpl; [done|].
  rewrite !elem_of_cons, list_elem_of_filter, IH.
  destruct (decide (x = a)); tauto.
Qed.

Lemma NoDup_nub (l : list string) : NoDup (nub l).
Proof.
  induction l as [|a l IH]; simpl; [constructor|].
  apply NoDup_cons. split; [|by apply NoDup_filter].
  rewrite list_elem_of_filter. tauto.
Qed.

(** When [x] comes before [y] among the first occurrences, [x] occurs in
    the list before any copy of [y] (and this is its first copy). *)
Lemma nub_order (l l1 l2 l3 : list string) (x y : string) :
  nub l = l1 ++ x :: l2 ++ y :: l3 ->
  exists s1 s2, l = s1 ++ x :: s2 /\ (x ∉ s1) /\ (y ∉ s1).
Proof.
  revert l1 l2 l3. induction l as [|a l IH]; intros l1 l2 l3 H; simpl in H.
  - by destruct l1.
  - destruct l1 as [|b l1]; simpl in H; injection H as <- H.
    + exists [], l. split; [done|]. split; apply not_elem_of_nil.
    + apply filter_split in H as (m1 & m2 & Hn & _ & H2 & Hxa).
      apply filter_split in H2 as (n1 & n2 & -> & _ & _ & Hya).
      destruct (IH _ _ _ Hn) as (s1 & s2 & -> & Hx & Hy).
      exists (a :: s1), s2. split; [done|].
      rewrite !not_elem_of_cons. done.
Qed.

Lemma clean_unfold (content : string) :
  clean content
  = filter (fun s => 3 < length (Split s " ")) (nub (segments content)).
Proof.
  unfold clean, segments.
  rewrite foldl_snoc_map, app_nil_l.
  by rewrite removeShortStrings_filter, removeDuplicates_nub.
Qed.

(** Splitting on one space gives one piece more than there are spaces. *)
Lemma split_go_space_length (s cur : string) :
  length (split_go " " 0 cur s) = S (space_count s).
Proof.
  revert cur. induction s as [|c s IH]; intros cur; [done|].
  cbn [split_go space_count String.prefix String.length].
  destruct (ascii_dec " " c) as [<-|Hc].
  - replace (String.prefix "" s) with true by (by destruct s).
    change (S (length (split_go " " 0 "" s)) = S (1 + space_count s)).
    by rewrite IH.
  - destruct (Ascii.eqb_spec c " ") as [->|_]; [done|]. apply IH.
Qed.

Lemma Split_space_length (s : string) :
  length (Split s " ") = S (space_count s).
Proof. apply split_go_space_length. Qed.

(** The fuel [TrimSpace] gives to [trim_with] is enough: neither pass
    stops while white space is left on its side. *)
Lemma sdrop_length (n : nat) (s : string) :
  String.length (sdrop n s) = String.length s - n.
Proof.
  revert s. induction n as [|n IH]; intros [|c s]; simpl; auto with lia.
Qed.

Lemma trim_with_done (width : string -> nat) (fuel : nat) (s : string) :
  width EmptyString = 0 -> String.length s <= fuel ->
  width (trim_with width fuel s) = 0.
Proof.
  intros H0. revert s. induction fuel as [|fuel IH]; intros s Hlen.
  - destruct s; [done|simpl in Hlen; lia].
  - cbn [trim_with]. destruct (width s) as [|w] eqn:Hw; [done|].
    apply IH. rewrite sdrop_length.
    destruct s; [congruence|simpl in *; lia].
Qed.

Lemma rev_app_length (a b : string) :
  String.length (String.rev_app a b) = String.length a + String.length b.
Proof.
  revert b. induction a as [|c a IH]; intros b; simpl; [done|].
  rewrite IH. simpl. lia.
Qed.

Lemma TrimSpace_fuel (s : string) :
  let l := trim_with leading_space (String.length s) s in
  leading_space l = 0
  /\ trailing_space (trim_with trailing_space (String.length l) (String.rev l)) = 0.
Proof.
  split; apply trim_with_done; try done.
  unfold String.rev. rewrite rev_app_length. simpl. lia.
Qed.

(** C7: [clean] returns no text twice; it returns exactly the trimmed
    segments that pass the length filter; and when [x] comes before [y] in
    the result, [x] occurs among the segments before any copy of [y], so
    the copy kept is the first and the first occurrences keep their
    order. *)
Theorem clean_first_occurrences (content : string) :
  NoDup (clean content)
  /\ (forall s, s ∈ clean content <->
                s ∈ segments content /\ 3 < length (Split s " "))
  /\ (forall l1 x l2 y l3,
        clean content = l1 ++ x :: l2 ++ y :: l3 ->
        exists s1 s2,
          segments content = s1 ++ x :: s2 /\ (x ∉ s1) /\ (y ∉ s1)).
Proof.
  rewrite clean_unfold. split; [|split].
  - apply NoDup_filter, NoDup_nub.
  - intros s. rewrite list_elem_of_filter, elem_of_nub. tauto.
  - intros l1 x l2 y l3 H.
    apply filter_split in H as (m1 & m2 & Hn & _ & H2 & _).
    apply filter_split in H2 as (n1 & n2 & -> & _ & _ & _).
    by apply nub_order in Hn.
Qed.

(** The scenario of the specification: the duplicate goes, and so does
    the one-word segment. *)
Example clean_scenario :
  clean ("alpha beta gamma delta" +:+ nl +:+ nl +:+
         "alpha beta gamma delta" +:+ nl +:+ nl +:+ "short")
  = ["alpha beta gamma delta"].
Proof. vm_compute. reflexivity. Qed.

(** C6, as stated, fails in both directions: "a  b c" (two spaces after
    the a) has three tokens and is kept, while a four-token segment whose
    tokens are separated by tabs is dropped. *)
Lemma token_count_does_not_decide :
  ~ (forall content seg,
       seg ∈ unique_segments content ->
       (seg ∉ clean content <-> token_count seg <= 3)).
Proof.
  intros H. specialize (H "a  b c" "a  b c").
  assert (unique_segments "a  b c" = ["a  b c"]) as Hu by (vm_compute; reflexivity).
  assert (clean "a  b c" = ["a  b c"]) as Hc by (vm_compute; reflexivity).
  assert (token_count "a  b c" = 3) as Ht by (vm_compute; reflexivity).
  rewrite Hu, Hc, Ht in H.
  destruct H as [_ H]; [apply list_elem_of_here|].
  apply H; [lia|]. apply list_elem_of_here.
Qed.

Example tabs_are_not_counted :
  let seg := "a" +:+ tab +:+ "b" +:+ tab +:+ "c" +:+ tab +:+ "d" in
  token_count seg = 4 /\ unique_segments seg = [seg] /\ clean seg = [].
Proof. repeat split; vm_compute; reflexivity. Qed.

(** C6, amended: a deduplicated trimmed segment is dropped exactly when
    splitting it on the space byte gives at most three pieces, and kept
    when it gives more than three; the number of pieces is one more than
    the number of space bytes in the segment. *)
Theorem clean_keeps_by_space_pieces (content seg : string) :
  seg ∈ unique_segments content ->
  (seg ∉ clean content <-> length (Split seg " ") <= 3)
  /\ (seg ∈ clean content <-> 3 < length (Split seg " "))
  /\ length (Split seg " ") = S (space_count seg).
Proof.
  unfold unique_segments. rewrite removeDuplicates_nub, clean_unfold.
  intros Hseg. rewrite list_elem_of_filter.
  split; [|split]; [| |apply Split_space_length].
  - split; [intros Hn; destruct (decide (3 < length (Split seg " "))); [tauto|lia]|].
    intros Hle [Hlt _]. lia.
  - tauto.
Qed.

Lemma clean_keeps_by_space_pieces_witness :
  ("a  b c" ∉ clean "a  b c" <-> length (Split "a  b c" " ") <= 3)
  /\ ("a  b c" ∈ clean "a  b c" <-> 3 < length (Split "a  b c" " "))
  /\ length (Split "a  b c" " ") = S (space_count "a  b c").
Proof.
  apply clean_keeps_by_space_pieces.
  change ("a  b c" ∈ ["a  b c"]). apply list_elem_of_here.
Defined.

(** ** The store *)

Lemma Go_bind_eq {A B} (m : Go A) (f : A -> Go B) (w : World) :
  (m ≫= f) w
  = match m w with
    | (Returned a, w') => f a w'
    | (Panicked why, w') => (Panicked why, w')
    end.
Proof. reflexivity. Qed.

(** One step of symbolic execution: the first statement of a sequence is
    run when it is one of the primitive ones. *)
Ltac go_step :=
  rewrite Go_bind_eq;
  cbv beta iota delta [mret Go_ret log get_vdb put_vdb Encode panic].

Lemma set_vdb_same (w : World) : set_vdb (vdb w) w = w.
Proof. by destruct w. Qed.

(** The loop of [addVectorDocuments] from index [i] on: every chunk that
    has an embedding is appended; the first one that has none stops the
    program. *)
Lemma add_loop (embeddings : list (list float32)) (content : list string)
    (i : nat) (w : World) :
  for_range (fun (_ : unit) i c =>
               e ← index embeddings i;
               v ← get_vdb;
               put_vdb (v ++ [{| Embedding := e; Content := c |}]))
            i content tt w
  = (if decide (length content <= length (drop i embeddings))
     then Returned tt else Panicked "index out of range",
     set_vdb (vdb w ++ new_records (drop i embeddings) content) w).
Proof.
  revert i w. induction content as [|c content IH]; intros i w.
  - cbn [for_range]. unfold new_records.
    rewrite zip_with_nil_r, app_nil_r, set_vdb_same.
    destruct (decide _) as [|Hn]; [done|]. exfalso. apply Hn. simpl. lia.
  - cbn [for_range]. unfold mbind at 1, Go_bind at 1.
    unfold mbind at 1, Go_bind at 1, index at 1.
    destruct (embeddings !! i) as [e|] eqn:He.
    + rewrite (drop_S _ _ _ He). simpl.
      rewrite IH. simpl. rewrite <- app_assoc. simpl. f_equal.
      destruct (decide (length content <= length (drop (S i) embeddings))),
               (decide (S (length content) <= S (length (drop (S i) embeddings))));
        done || lia.
    + apply lookup_ge_None_1 in He. rewrite (drop_ge _ _ He).
      unfold new_records. cbn [zip_with]. rewrite app_nil_r, set_vdb_same.
      destruct (decide (length (c :: content) <= length (@nil (list float32))))
        as [Hle|]; [simpl in Hle; lia|done].
Qed.

(** [addVectorDocuments] in closed form. *)
Lemma addVectorDocuments_eq (llm : Ollama) (content : list string) (w : World) :
  addVectorDocuments llm content w
  = let embeddings := (getEmbeddings llm content).1 in
    let err := (getEmbeddings llm content).2 in
    let w1 := after_embed err (after_open w) in
    let w2 := set_vdb (vdb w ++ new_records embeddings content) w1 in
    if decide (length content <= length embeddings) then
      (Returned tt,
       if fs_ok w then set_vdb_gob (Some (Encoded (vdb w2))) w2
       else add_logged "cannot save vdb to file" w2)
    else (Panicked "index out of range", w2).
Proof.
  unfold addVectorDocuments.
  destruct (getEmbeddings llm content) as [embeddings err]. cbn [fst snd].
  unfold mbind at 1, Go_bind at 1, OpenFile_create, after_open.
  destruct w as [v f ok lg ak]; cbn [fs_ok vdb_gob vdb].
  destruct ok, f as [f|], err as [e|];
    cbv beta iota; repeat go_step;
    rewrite add_loop, drop_0;
    destruct (decide (length content <= length embeddings)); reflexivity.
Qed.

(** [loadVdb] in closed form: it always returns. *)
Lemma loadVdb_eq (w : World) :
  loadVdb w
  = (Returned tt,
     match (if fs_ok w then vdb_gob w else None) with
     | None => add_logged "Error opening file:" w
     | Some Undecodable => add_logged "Error decoding:" w
     | Some (Encoded docs) =>
         add_logged "loaded %d records into vdb" (set_vdb docs w)
     end).
Proof.
  unfold loadVdb, Open. rewrite Go_bind_eq.
  destruct (if fs_ok w then vdb_gob w else None) as [[docs|]|]; reflexivity.
Qed.

(** C5, as stated, fails: when the Ollama client cannot be created the
    batch of embeddings is empty, and adding one chunk stops the program
    at [embeddings[0]]; no record is stored and nothing is encoded. *)
Lemma add_without_embeddings_panics :
  let r := addVectorDocuments down_llm ["a b c d"] (boot None) in
  getEmbeddings down_llm ["a b c d"] = ([], Some "connection refused")
  /\ r.1 = Panicked "index out of range"
  /\ r.1 <> Returned tt
  /\ vdb r.2 = []
  /\ vdb_gob r.2 = Some Undecodable.
Proof. cbv zeta. repeat split; try (vm_compute; reflexivity). discriminate. Qed.

(** C5, amended: when the embedding call fails, [addVectorDocuments] logs
    the error and goes on without checking the batch against the chunks.
    If the batch is shorter than the chunk list the program panics at the
    first chunk without an embedding, having appended the records before
    it and encoded nothing; otherwise it returns, with one record per
    chunk appended. *)
Theorem add_after_failed_embedding (llm : Ollama) (content : list string)
    (w : World) (embeddings : list (list float32)) (err : string) :
  content <> [] ->
  getEmbeddings llm content = (embeddings, Some err) ->
  let r := addVectorDocuments llm content w in
  "cannot get embeddings" ∈ logged r.2
  /\ vdb r.2 = vdb w ++ new_records embeddings content
  /\ (length embeddings < length content ->
        r.1 = Panicked "index out of range"
        /\ vdb_gob r.2 = vdb_gob (after_open w))
  /\ (length content <= length embeddings ->
        r.1 = Returned tt
        /\ length (vdb r.2) = length (vdb w) + length content).
Proof.
  intros _ Hemb r. subst r. rewrite addVectorDocuments_eq, Hemb. cbn [fst snd].
  cbv zeta. unfold after_embed.
  destruct (decide (length content <= length embeddings)) as [Hle|Hgt];
    cbn [fst snd].
  - split; [|split; [|split]].
    + destruct (fs_ok w); simpl; set_solver.
    + by destruct (fs_ok w).
    + lia.
    + intros _. split; [done|].
      replace (vdb _) with (vdb w ++ new_records embeddings content)
        by (by destruct (fs_ok w)).
      unfold new_records. rewrite length_app, length_zip_with. lia.
  - split; [|split; [|split]].
    + simpl. set_solver.
    + done.
    + intros _. split; done.
    + lia.
Qed.

Lemma add_after_failed_embedding_witness :
  let r := addVectorDocuments down_llm ["a b c d"] (boot None) in
  "cannot get embeddings" ∈ logged r.2
  /\ vdb r.2 = vdb (boot None) ++ new_records [] ["a b c d"]
  /\ (length (@nil (list float32)) < length ["a b c d"] ->
        r.1 = Panicked "index out of range"
        /\ vdb_gob r.2 = vdb_gob (after_open (boot None)))
  /\ (length ["a b c d"] <= length (@nil (list float32)) ->
        r.1 = Returned tt
        /\ length (vdb r.2) = length (vdb (boot None)) + length ["a b c d"]).
Proof.
  apply (add_after_failed_embedding down_llm ["a b c d"] (boot None) []
           "connection refused"); [discriminate|reflexivity].
Defined.

(** C8: whenever [addVectorDocuments] writes a snapshot, the snapshot is
    the in-memory sequence of that moment, that is the records in memory
    at the call followed by the records of this call.  What the file held
    before plays no part: the result is the same for every prior content
    of the file, and a record of a prior snapshot that is neither in
    memory nor made by this call is absent afterwards. *)
Theorem add_snapshot_is_memory (llm : Ollama) (content : list string) (w : World) :
  fs_ok w = true ->
  (addVectorDocuments llm content w).1 = Returned tt ->
  let new := new_records (getEmbeddings llm content).1 content in
  vdb_gob (addVectorDocuments llm content w).2 = Some (Encoded (vdb w ++ new))
  /\ (forall prior,
        vdb_gob (addVectorDocuments llm content (set_vdb_gob prior w)).2
        = Some (Encoded (vdb w ++ new)))
  /\ (forall old r,
        vdb_gob w = Some (Encoded old) -> r ∈ old -> r ∉ vdb w -> r ∉ new ->
        forall after,
          vdb_gob (addVectorDocuments llm content w).2 = Some (Encoded after) ->
          r ∉ after).
Proof.
  intros Hok Hret new. subst new.
  assert (forall prior,
            vdb_gob (addVectorDocuments llm content (set_vdb_gob prior w)).2
            = Some (Encoded (vdb w ++ new_records (getEmbeddings llm content).1 content)))
    as Hany.
  { intros prior. rewrite addVectorDocuments_eq in Hret |- *. cbv zeta in *.
    destruct (decide (length content <= length (getEmbeddings llm content).1));
      [|discriminate].
    cbn [fst snd fs_ok set_vdb_gob]. rewrite Hok. reflexivity. }
  assert (vdb_gob (addVectorDocuments llm content w).2
          = Some (Encoded (vdb w ++ new_records (getEmbeddings llm content).1 content)))
    as Hhere.
  { specialize (Hany (vdb_gob w)). by destruct w. }
  split; [exact Hhere|]. split; [exact Hany|].
  intros old r _ _ Hmem Hnew after Hafter.
  rewrite Hhere in Hafter. injection Hafter as <-.
  rewrite elem_of_app. tauto.
Qed.

Lemma add_snapshot_is_memory_witness :
  let llm := const_llm [v10] in
  let w := set_vdb [docB] (boot (Some (Encoded [docC]))) in
  let new := new_records (getEmbeddings llm ["A"]).1 ["A"] in
  vdb_gob (addVectorDocuments llm ["A"] w).2 = Some (Encoded (vdb w ++ new))
  /\ (forall prior,
        vdb_gob (addVectorDocuments llm ["A"] (set_vdb_gob prior w)).2
        = Some (Encoded (vdb w ++ new)))
  /\ (forall old r,
        vdb_gob w = Some (Encoded old) -> r ∈ old -> r ∉ vdb w -> r ∉ new ->
        forall after,
          vdb_gob (addVectorDocuments llm ["A"] w).2 = Some (Encoded after) ->
          r ∉ after).
Proof.
  apply (add_snapshot_is_memory (const_llm [v10]) ["A"]
           (set_vdb [docB] (boot (Some (Encoded [docC]))))); reflexivity.
Defined.

(** X23: the add path of [main] in a fresh process: when the embedder
    gives a vector for every chunk, the file afterwards holds the records
    of this document only; those of an earlier snapshot are gone. *)
Lemma main_add_replaces_snapshot (convert : string -> string * option string)
    (llm : Ollama) (path : string) (old : list VectorDocument) :
  let content := clean (convert path).1 in
  let embeddings := (getEmbeddings llm content).1 in
  length content <= length embeddings ->
  vdb_gob (main convert llm ["vdb"; "add"; path] (boot (Some (Encoded old)))).2
  = Some (Encoded (new_records embeddings content)).
Proof.
  intros content embeddings Hlen. unfold main.
  rewrite Go_bind_eq. cbn [index lookup list_lookup]. unfold mret at 1, Go_ret at 1.
  cbv beta iota. rewrite Go_bind_eq.
  change (String.eqb "add" "add") with true. cbv iota.
  rewrite Go_bind_eq. cbn [index lookup list_lookup]. unfold mret at 1, Go_ret at 1.
  cbv beta iota. rewrite Go_bind_eq. unfold log at 1. cbv beta iota.
  rewrite addVectorDocuments_eq. cbv zeta. fold content. fold embeddings.
  rewrite decide_True by done. reflexivity.
Qed.

(** C9: from an empty store with no file, adding the two chunks of
    records [r1] and [r2] (the embedder answering with their embeddings)
    and then loading gives back [r1; r2], in the same process as well as
    in a fresh one that finds the file. *)
Theorem add_then_load (llm : Ollama) (r1 r2 : VectorDocument) (w : World) :
  vdb w = [] -> vdb_gob w = None -> fs_ok w = true ->
  (getEmbeddings llm [Content r1; Content r2]).1 = [Embedding r1; Embedding r2] ->
  let added := addVectorDocuments llm [Content r1; Content r2] w in
  added.1 = Returned tt
  /\ vdb_gob added.2 = Some (Encoded [r1; r2])
  /\ (addVectorDocuments llm [Content r1; Content r2] ;; loadVdb) w
     = (Returned tt, (loadVdb added.2).2)
  /\ vdb (loadVdb added.2).2 = [r1; r2]
  /\ vdb (loadVdb (boot (vdb_gob added.2))).2 = [r1; r2].
Proof.
  intros Hvdb Hfile Hok Hemb added.
  assert (addVectorDocuments llm [Content r1; Content r2] w
          = (Returned tt,
             set_vdb_gob (Some (Encoded [r1; r2]))
               (set_vdb [r1; r2]
                  (after_embed (getEmbeddings llm [Content r1; Content r2]).2
                     (after_open w))))) as Hadd.
  { rewrite addVectorDocuments_eq. cbv zeta. rewrite Hemb, Hvdb, Hok.
    destruct r1, r2. reflexivity. }
  subst added. rewrite Go_bind_eq, Hadd. cbn [fst snd].
  rewrite !loadVdb_eq. cbn [fst snd].
  assert (fs_ok (after_embed (getEmbeddings llm [Content r1; Content r2]).2
                   (after_open w)) = true) as Hok'.
  { unfold after_embed, after_open. rewrite Hok, Hfile.
    by destruct (getEmbeddings llm [Content r1; Content r2]).2. }
  cbn [fs_ok vdb_gob set_vdb_gob set_vdb boot]. rewrite Hok'.
  repeat split; reflexivity.
Qed.

Lemma add_then_load_witness :
  let llm := const_llm [v10; v01] in
  let added := addVectorDocuments llm [Content docA; Content docB] (boot None) in
  added.1 = Returned tt
  /\ vdb_gob added.2 = Some (Encoded [docA; docB])
  /\ (addVectorDocuments llm [Content docA; Content docB] ;; loadVdb) (boot None)
     = (Returned tt, (loadVdb added.2).2)
  /\ vdb (loadVdb added.2).2 = [docA; docB]
  /\ vdb (loadVdb (boot (vdb_gob added.2))).2 = [docA; docB].
Proof.
  apply (add_then_load (const_llm [v10; v01]) docA docB (boot None)); reflexivity.
Defined.




(** X24: a call in a fresh process that finds no file: the load fails
    softly, the retrieval then runs on zero records and panics, and the
    generator is never asked. *)
Lemma call_without_file (convert : string -> string * option string)
    (llm : Ollama) (question : string) :
  exists why w,
    main convert llm ["vdb"; "call"; question] (boot None) = (Panicked why, w)
    /\ vdb w = [] /\ asked w = [].
Proof.
  unfold main.
  rewrite Go_bind_eq. cbn [index lookup list_lookup]. unfold mret at 1, Go_ret at 1.
  cbv beta iota. rewrite Go_bind_eq.
  change (String.eqb "call" "add") with false. cbv iota.
  unfold mret at 1, Go_ret at 1. cbv beta iota.
  change (String.eqb "call" "call") with true. cbv iota.
  rewrite Go_bind_eq. unfold log at 1. cbv beta iota.
  rewrite Go_bind_eq, loadVdb_eq. cbn [fs_ok vdb_gob add_logged boot].
  rewrite Go_bind_eq. cbn [index lookup list_lookup]. unfold mret at 1, Go_ret at 1.
  cbv beta iota. rewrite Go_bind_eq.
  match goal with
  | |- context [getSimilarChunks llm question ?w0] =>
      destruct (getSimilarChunks_small_store llm question w0) as [why ->];
        [simpl; lia|]; exists why, w0
  end.
  repeat split.
Qed.

(** ** Retrieval when the scores differ *)

Lemma insert_desc_perm (x : float32) (l : list float32) :
  insert_desc x l ≡ₚ x :: l.
Proof.
  induction l as [|y l IH]; simpl; [done|].
  destruct (F32.gtb x y); [done|].
  rewrite IH. apply Permutation_swap.
Qed.

Lemma sort_desc_perm (l : list float32) : sort_desc l ≡ₚ l.
Proof.
  induction l as [|x l IH]; simpl; [done|].
  by rewrite insert_desc_perm, IH.
Qed.

Lemma Distinct_perm (l l' : list float32) :
  l ≡ₚ l' -> Distinct l -> Distinct l'.
Proof.
  induction 1 as [|x l l' Hp IH|x y l|l1 l2 l3 _ IH1 _ IH2]; intros Hd.
  - done.
  - inversion Hd as [|? ? Hx Hl]; subst. constructor; [by rewrite <- Hp|auto].
  - inversion Hd as [|? ? Hy Hl]; subst.
    inversion Hl as [|? ? Hx Hl']; subst.
    inversion Hy as [|? ? Hyx Hy']; subst.
    constructor; [constructor; [by rewrite eqb_sym|done]|].
    by constructor.
  - auto.
Qed.

Lemma insert_desc_sorted (x : float32) (l : list float32) :
  F32.is_nan x = false ->
  Forall (fun y => F32.is_nan y = false /\ F32.eqb x y = false) l ->
  StronglySorted desc l -> StronglySorted desc (insert_desc x l).
Proof.
  intros Hx. induction l as [|y l IH]; intros Hl Hs; simpl.
  - repeat constructor.
  - inversion Hl as [|? ? [Hy Hxy] Hl']; subst.
    inversion Hs as [|? ? Hs' Hyl]; subst.
    destruct (F32.gtb x y) eqn:Hgt.
    + constructor; [done|]. constructor; [done|].
      eapply Forall_impl; [exact Hyl|]. intros z Hz. by eapply gtb_trans.
    + constructor; [by apply IH|].
      rewrite insert_desc_perm. constructor; [|done].
      destruct (gtb_total x y Hx Hy) as [?|[?|?]]; [congruence|congruence|done].
Qed.

(** On keys that are pairwise different and not NaN the sort returns a
    strictly descending list. *)
Lemma sort_desc_sorted (l : list float32) :
  Forall (fun y => F32.is_nan y = false) l -> Distinct l ->
  StronglySorted desc (sort_desc l).
Proof.
  induction l as [|x l IH]; intros Hn Hd; simpl; [constructor|].
  inversion Hn as [|? ? Hx Hn']; subst.
  inversion Hd as [|? ? Hxl Hd']; subst.
  apply insert_desc_sorted; [done| |by apply IH].
  rewrite sort_desc_perm. rewrite Forall_forall in *. intros y Hy. auto.
Qed.

(** A strictly descending list is determined by its elements. *)
Lemma desc_sorted_unique (l1 l2 : list float32) :
  StronglySorted desc l1 -> StronglySorted desc l2 -> l1 ≡ₚ l2 -> l1 = l2.
Proof.
  revert l2. induction l1 as [|x l1 IH]; intros l2 H1 H2 Hp.
  - by apply Permutation_nil_l in Hp.
  - destruct l2 as [|y l2]; [by apply Permutation_nil_r in Hp|].
    inversion H1 as [|? ? H1' Hx]; subst. inversion H2 as [|? ? H2' Hy]; subst.
    assert (x = y) as ->.
    { assert (x ∈ y :: l2) as Hxin by (rewrite <- Hp; left).
      assert (y ∈ x :: l1) as Hyin by (rewrite Hp; left).
      apply elem_of_cons in Hxin as [?|Hxin]; [done|].
      apply elem_of_cons in Hyin as [?|Hyin]; [done|].
      rewrite Forall_forall in Hx, Hy.
      pose proof (gtb_asym _ _ (Hx _ Hyin)) as Hno.
      unfold desc in Hy. rewrite (Hy _ Hxin) in Hno. discriminate. }
    f_equal. apply IH; [done|done|]. by apply Permutation_cons_inv in Hp.
Qed.

(** Whatever order the keys are iterated in, and whatever correct sorting
    routine is used, the outcome is that of [sort_desc]: any descending
    arrangement of the keys equals it. *)
Lemma sort_desc_order_irrelevant (keys sorted : list float32) :
  Forall (fun y => F32.is_nan y = false) keys -> Distinct keys ->
  sorted ≡ₚ keys -> StronglySorted desc sorted ->
  sorted = sort_desc keys.
Proof.
  intros Hn Hd Hp Hs. apply desc_sorted_unique; [done| |].
  - by apply sort_desc_sorted.
  - by rewrite sort_desc_perm.
Qed.

(** Facts about one assignment [m[k] = v]. *)
Lemma map_assign_self (m : score_map) (k : float32) (v : string) :
  (k, v) ∈ map_assign m k v.
Proof.
  induction m as [|[k' v'] m IH]; simpl; [left|].
  destruct (F32.eqb k' k); [left|by right].
Qed.

Lemma map_assign_in (m : score_map) (k k1 : float32) (v v1 : string) :
  (k1, v1) ∈ map_assign m k v -> (k1, v1) ∈ m \/ (k1, v1) = (k, v).
Proof.
  induction m as [|[k' v'] m IH]; simpl.
  - intros H. apply list_elem_of_singleton in H. by right.
  - destruct (F32.eqb k' k); rewrite !elem_of_cons; intuition.
Qed.

Lemma map_assign_keep (m : score_map) (k k1 : float32) (v v1 : string) :
  (k1, v1) ∈ m -> (k1, v1) ∈ map_assign m k v \/ F32.eqb k1 k = true.
Proof.
  induction m as [|[k' v'] m IH]; simpl; [by intros ?%elem_of_nil|].
  destruct (F32.eqb k' k) eqn:Hk; rewrite !elem_of_cons.
  - intros [[= -> ->]|H]; [by right|by left; right].
  - intros [H|H]; [by left; left|]. destruct (IH H); [left; by right|by right].
Qed.

Lemma map_assign_Distinct (m : score_map) (k : float32) (v : string) :
  Distinct (map_keys m) -> Distinct (map_keys (map_assign m k v)).
Proof.
  unfold map_keys. induction m as [|[k' v'] m IH]; simpl; intros Hd.
  - repeat constructor.
  - inversion Hd as [|? ? Hk' Hd']; subst.
    destruct (F32.eqb k' k) eqn:Hk; simpl; constructor; auto.
    + eapply Forall_impl; [exact Hk'|]. intros y Hy. simpl in Hy.
      destruct (F32.eqb k y) eqn:Hky; [|done].
      by rewrite (eqb_trans _ _ _ Hk Hky) in Hy.
    + rewrite Forall_forall in *. intros y Hy.
      apply list_elem_of_fmap in Hy as ([k1 v1] & -> & Hy).
      apply map_assign_in in Hy as [Hy|[= -> ->]]; [|done].
      apply Hk'. apply list_elem_of_fmap. by exists (k1, v1).
Qed.

(** Looking a key of the map up gives the value stored with it. *)
Lemma map_index_entry (m : score_map) (k : float32) (v : string) :
  Distinct (map_keys m) -> F32.is_nan k = false -> (k, v) ∈ m ->
  map_index m k = v.
Proof.
  unfold map_keys. induction m as [|[k' v'] m IH]; simpl; intros Hd Hk Hin.
  - by apply elem_of_nil in Hin.
  - inversion Hd as [|? ? Hk' Hd']; subst.
    apply elem_of_cons in Hin as [[= <- <-]|Hin].
    + by rewrite eqb_refl.
    + rewrite Forall_forall in Hk'. rewrite (Hk' k); [by apply IH|].
      apply list_elem_of_fmap. by exists (k, v).
Qed.

(** The map built from the records: its keys are pairwise different,
    every entry comes from a record, and every score that is not NaN is
    the key of an entry (up to [==]). *)
Lemma scoring_Distinct (q : list float32) (docs : list VectorDocument)
    (acc : score_map) :
  Distinct (map_keys acc) ->
  Distinct (map_keys (foldl (fun chunks doc =>
                               map_assign chunks (score q doc) (Content doc))
                            acc docs)).
Proof.
  revert acc. induction docs as [|d docs IH]; intros acc Hd; simpl; [done|].
  by apply IH, map_assign_Distinct.
Qed.

Lemma scoring_entries (q : list float32) (docs : list VectorDocument)
    (acc : score_map) (k : float32) (c : string) :
  (k, c) ∈ foldl (fun chunks doc =>
                    map_assign chunks (score q doc) (Content doc)) acc docs ->
  (k, c) ∈ acc \/ exists d, d ∈ docs /\ k = score q d /\ c = Content d.
Proof.
  revert acc. induction docs as [|d docs IH]; intros acc; simpl; [by left|].
  intros H. apply IH in H as [H|(d' & Hd' & Hk & Hc)].
  - apply map_assign_in in H as [H|[= -> ->]]; [by left|].
    right. exists d. split; [left|done].
  - right. exists d'. split; [by right|done].
Qed.

Lemma scoring_keeps (q : list float32) (docs : list VectorDocument)
    (acc : score_map) (s : float32) :
  (exists k c, (k, c) ∈ acc /\ F32.eqb k s = true) ->
  exists k c,
    (k, c) ∈ foldl (fun chunks doc =>
                      map_assign chunks (score q doc) (Content doc)) acc docs
    /\ F32.eqb k s = true.
Proof.
  revert acc. induction docs as [|d docs IH]; intros acc; simpl; [done|].
  intros (k & c & Hin & Hk). apply IH.
  destruct (map_assign_keep acc (score q d) k (Content d) c Hin) as [H|H].
  - by exists k, c.
  - exists (score q d), (Content d). split; [apply map_assign_self|].
    eapply eqb_trans; [|exact Hk]. by rewrite eqb_sym.
Qed.

Lemma scoring_covers (q : list float32) (docs : list VectorDocument)
    (acc : score_map) (d : VectorDocument) :
  d ∈ docs -> F32.is_nan (score q d) = false ->
  exists k c,
    (k, c) ∈ foldl (fun chunks doc =>
                      map_assign chunks (score q doc) (Content doc)) acc docs
    /\ F32.eqb k (score q d) = true.
Proof.
  revert acc. induction docs as [|d' docs IH]; intros acc Hd Hn; simpl.
  - by apply elem_of_nil in Hd.
  - apply elem_of_cons in Hd as [->|Hd]; [|by apply IH].
    apply scoring_keeps. exists (score q d'), (Content d').
    split; [apply map_assign_self|by apply eqb_refl].
Qed.

(** X21: when no score is NaN and the map has at least three entries, that
    is when at least three different scores occur, the retrieval returns the
    contents of three records in strictly descending order of score, and
    every record scores below the third or like one of the three. *)
Theorem top3_of_distinct_scores (llm : Ollama) (question : string)
    (q : list float32) (w : World) :
  (getEmbeddings llm [question]).1 !! 0 = Some q ->
  (forall d, d ∈ vdb w -> F32.is_nan (score q d) = false) ->
  3 <= length (score_all q (vdb w)) ->
  exists d1 d2 d3,
    d1 ∈ vdb w /\ d2 ∈ vdb w /\ d3 ∈ vdb w
    /\ getSimilarChunks llm question w
       = (Returned [Content d1; Content d2; Content d3], w)
    /\ desc (score q d1) (score q d2) /\ desc (score q d2) (score q d3)
    /\ forall d, d ∈ vdb w ->
         desc (score q d3) (score q d)
         \/ F32.eqb (score q d) (score q d1) = true
         \/ F32.eqb (score q d) (score q d2) = true
         \/ F32.eqb (score q d) (score q d3) = true.
Proof.
  intros Hq Hnan Hlen.
  rewrite (getSimilarChunks_query llm question q w Hq). cbv zeta.
  destruct (Nat.leb_spec 3 (length (score_all q (vdb w)))) as [_|]; [|lia].
  set (chunks := score_all q (vdb w)) in *.
  assert (Distinct (map_keys chunks)) as Hdist
    by (apply (scoring_Distinct q (vdb w) []); constructor).
  assert (forall k c, (k, c) ∈ chunks ->
            exists d, d ∈ vdb w /\ k = score q d /\ c = Content d) as Hent.
  { intros k c H. apply (scoring_entries q (vdb w) []) in H as [H|H]; [|done].
    by apply elem_of_nil in H. }
  assert (Forall (fun y => F32.is_nan y = false) (map_keys chunks)) as Hkn.
  { rewrite Forall_forall. intros k Hk.
    apply list_elem_of_fmap in Hk as ([k1 c1] & -> & Hk).
    destruct (Hent _ _ Hk) as (d & Hd & -> & _). by apply Hnan. }
  pose proof (sort_desc_sorted _ Hkn Hdist) as Hsorted.
  pose proof (sort_desc_perm (map_keys chunks)) as Hperm.
  pose proof (sort_desc_length (map_keys chunks)) as Hslen.
  unfold map_keys in Hslen at 2. rewrite length_fmap in Hslen.
  destruct (sort_desc (map_keys chunks)) as [|k1 [|k2 [|k3 rest]]];
    simpl in Hslen; try lia.
  assert (forall k, k ∈ k1 :: k2 :: k3 :: rest ->
            exists d, d ∈ vdb w /\ k = score q d
                      /\ map_index chunks k = Content d) as Hkey.
  { intros k Hk. rewrite Hperm in Hk.
    pose proof Hk as Hk'. rewrite Forall_forall in Hkn. apply Hkn in Hk'.
    apply list_elem_of_fmap in Hk as ([k0 c0] & -> & Hk).
    destruct (Hent _ _ Hk) as (d & Hd & Hkd & Hc).
    exists d. split; [done|]. split; [done|].
    rewrite <- Hc. by apply map_index_entry. }
  destruct (Hkey k1) as (d1 & Hd1 & -> & Hc1); [set_solver|].
  destruct (Hkey k2) as (d2 & Hd2 & -> & Hc2); [set_solver|].
  destruct (Hkey k3) as (d3 & Hd3 & -> & Hc3); [set_solver|].
  exists d1, d2, d3. split; [done|]. split; [done|]. split; [done|].
  inversion Hsorted as [|? ? Hs1 H1]; subst.
  inversion Hs1 as [|? ? Hs2 H2]; subst.
  inversion Hs2 as [|? ? Hs3 H3]; subst.
  split; [cbn [take fmap list_fmap]; by rewrite Hc1, Hc2, Hc3|].
  split; [by inversion H1|]. split; [by inversion H2|].
  intros d Hd.
  destruct (scoring_covers q (vdb w) [] d Hd (Hnan d Hd)) as (k & c & Hin & Hk).
  fold (score_all q (vdb w)) in Hin. fold chunks in Hin.
  assert (k ∈ score q d1 :: score q d2 :: score q d3 :: rest) as Hkin.
  { rewrite Hperm. apply list_elem_of_fmap. by exists (k, c). }
  rewrite !elem_of_cons in Hkin.
  destruct Hkin as [->|[->|[->|Hrest]]].
  - right; left. by rewrite eqb_sym.
  - right; right; left. by rewrite eqb_sym.
  - right; right; right. by rewrite eqb_sym.
  - left. rewrite Forall_forall in H3. eapply gtb_eqb_r; [exact Hk|by apply H3].
Qed.

(** X22: three records whose scores are pairwise different and not NaN
    give the map at least three entries, so that [keys[:3]] is in range. *)
Lemma three_scores_three_entries (q : list float32) (docs : list VectorDocument)
    (d1 d2 d3 : VectorDocument) :
  d1 ∈ docs -> d2 ∈ docs -> d3 ∈ docs ->
  F32.is_nan (score q d1) = false ->
  F32.is_nan (score q d2) = false ->
  F32.is_nan (score q d3) = false ->
  F32.eqb (score q d1) (score q d2) = false ->
  F32.eqb (score q d1) (score q d3) = false ->
  F32.eqb (score q d2) (score q d3) = false ->
  3 <= length (score_all q docs).
Proof.
  intros H1 H2 H3 N1 N2 N3 E12 E13 E23.
  destruct (scoring_covers q docs [] d1 H1 N1) as (k1 & c1 & I1 & K1).
  destruct (scoring_covers q docs [] d2 H2 N2) as (k2 & c2 & I2 & K2).
  destruct (scoring_covers q docs [] d3 H3 N3) as (k3 & c3 & I3 & K3).
  assert (forall a b ka kb, F32.eqb ka a = true -> F32.eqb kb b = true ->
            F32.eqb a b = false -> ka <> kb) as Hne.
  { intros a b ka kb Ha Hb Hab ->.
    rewrite eqb_sym in Ha. by rewrite (eqb_trans _ _ _ Ha Hb) in Hab. }
  assert (NoDup [(k1, c1); (k2, c2); (k3, c3)]) as Hnd.
  { assert (k1 <> k2) by eauto. assert (k1 <> k3) by eauto.
    assert (k2 <> k3) by eauto.
    repeat constructor; rewrite ?elem_of_cons, ?elem_of_nil;
      intuition congruence. }
  change 3 with (length [(k1, c1); (k2, c2); (k3, c3)]).
  apply submseteq_length, NoDup_submseteq; [done|].
  intros x. rewrite !elem_of_cons, elem_of_nil.
  intros [->|[->|[->|[]]]]; [exact I1|exact I2|exact I3].
Qed.

Lemma scenario_scores_not_nan (d : VectorDocument) :
  d ∈ vdb scenario -> F32.is_nan (score v10 d) = false.
Proof.
  intros Hd. change (vdb scenario) with [docA; docB; docC] in Hd.
  rewrite !elem_of_cons, elem_of_nil in Hd.
  destruct Hd as [->|[->|[->|[]]]]; vm_compute; reflexivity.
Defined.

Lemma top3_of_distinct_scores_witness :
  exists d1 d2 d3,
    d1 ∈ vdb scenario /\ d2 ∈ vdb scenario /\ d3 ∈ vdb scenario
    /\ getSimilarChunks (const_llm [v10]) "q" scenario
       = (Returned [Content d1; Content d2; Content d3], scenario)
    /\ desc (score v10 d1) (score v10 d2) /\ desc (score v10 d2) (score v10 d3)
    /\ forall d, d ∈ vdb scenario ->
         desc (score v10 d3) (score v10 d)
         \/ F32.eqb (score v10 d) (score v10 d1) = true
         \/ F32.eqb (score v10 d) (score v10 d2) = true
         \/ F32.eqb (score v10 d) (score v10 d3) = true.
Proof.
  apply (top3_of_distinct_scores (const_llm [v10]) "q" v10 scenario).
  - reflexivity.
  - exact scenario_scores_not_nan.
  - vm_compute. repeat constructor.
Defined.

Lemma three_scores_three_entries_witness :
  3 <= length (score_all v10 [docA; docB; docC]).
Proof.
  apply (three_scores_three_entries v10 [docA; docB; docC] docA docB docC);
    try (vm_compute; reflexivity).
  - left.
  - right; left.
  - right; right; left.
Defined.

(** * Further properties of the code *)

(** ** The vector arithmetic *)





(** X2: when the two vectors differ in length, [dotproduct] is +0 and
    [similarity] is a zero or NaN (NaN when the product of the magnitudes
    is itself zero or NaN): never an error, never a non-zero score. *)
Theorem similarity_length_mismatch (a b : list float32) :
  length a <> length b ->
  dotproduct a b = F32.zero /\ zero_or_nan (similarity a b).
Proof.
  intros Hne.
  assert (dotproduct a b = F32.zero) as Hdot.
  { unfold dotproduct. by apply Nat.eqb_neq in Hne as ->. }
  split; [done|]. unfold similarity. rewrite Hdot.
  by destruct (F32.mul (magnitude a) (magnitude b)).
Qed.

Lemma similarity_length_mismatch_witness :
  dotproduct v10 [F32.of_Z 1] = F32.zero /\ zero_or_nan (similarity v10 [F32.of_Z 1]).
Proof. apply similarity_length_mismatch. simpl. lia. Defined.

Lemma binary_round_aux_sign_clear (prec emax : Z) (m e : Z) (l : location) :
  sign_clear (binary_round_aux prec emax false m e l).
Proof.
  unfold binary_round_aux.
  destruct (shr_fexp prec emax m e l) as [mrs e'].
  destruct (shr_fexp prec emax _ e' loc_Exact) as [mrs' e''].
  destruct (shr_m mrs'); [done| |done].
  by destruct (Z.leb e'' (emax - prec)).
Qed.

Lemma binary_round_sign_clear (prec emax : Z) (m : positive) (e : Z) :
  sign_clear (binary_round prec emax false m e).
Proof.
  unfold binary_round. destruct (shl_align m e _) as [mz ez].
  apply binary_round_aux_sign_clear.
Qed.

Lemma SFadd_sign_clear (prec emax : Z) (x y : spec_float) :
  sign_clear x -> sign_clear y -> sign_clear (SFadd prec emax x y).
Proof.
  destruct x as [sx|sx| |sx mx ex], y as [sy|sy| |sy my ey]; simpl;
    intros Hx Hy; subst; try done.
  apply binary_round_sign_clear.
Qed.

Lemma Pow2_sign_clear (x : float64) : sign_clear (F64.Pow2 x).
Proof.
  unfold F64.Pow2, F64.mul.
  destruct x as [s|s| |s m e]; simpl; rewrite ?xorb_nilpotent; try done.
  apply binary_round_aux_sign_clear.
Qed.

Lemma to_f32_sign_clear (x : float64) : sign_clear x -> sign_clear (F64.to_f32 x).
Proof.
  destruct x as [s|s| |s m e]; simpl; try done.
  intros ->. apply binary_round_sign_clear.
Qed.

Lemma sum_of_squares_sign_clear (a : list float32) (acc : float64) :
  sign_clear acc ->
  sign_clear (foldl (fun mag x => F64.add mag (F64.Pow2 (F64.of_f32 x))) acc a).
Proof.
  revert acc. induction a as [|x a IH]; intros acc Hacc; simpl; [done|].
  apply IH. apply SFadd_sign_clear; [done|apply Pow2_sign_clear].
Qed.

Lemma magnitude_sign_clear_aux (a : list float32) : sign_clear (magnitude a).
Proof.
  unfold magnitude. by apply to_f32_sign_clear, sum_of_squares_sign_clear.
Qed.

(** X3: [magnitude] is never negative: whatever the vector, the result is
    NaN or has its sign bit clear (+0, a positive number or +Inf); and
    the magnitude of the empty vector is +0. *)
Theorem magnitude_sign_clear (a : list float32) :
  sign_clear (magnitude a) /\ magnitude [] = F32.zero.
Proof.
  split; [|reflexivity].
  unfold magnitude. apply to_f32_sign_clear.
  by apply sum_of_squares_sign_clear.
Qed.

(** ** The score map and the retrieval *)

Lemma map_index_assign_same (m : score_map) (k : float32) (v : string) :
  F32.is_nan k = false -> map_index (map_assign m k v) k = v.
Proof.
  intros Hk. induction m as [|[k' v'] m IH]; simpl.
  - by rewrite eqb_refl.
  - destruct (F32.eqb k' k) eqn:Hk'; simpl; [by rewrite eqb_refl|].
    by rewrite Hk'.
Qed.

Lemma map_index_assign_other (m : score_map) (k k2 : float32) (v2 : string) :
  F32.eqb k2 k = false -> map_index (map_assign m k2 v2) k = map_index m k.
Proof.
  intros Hk. induction m as [|[k' v'] m IH]; simpl.
  - by rewrite Hk.
  - destruct (F32.eqb k' k2) eqn:Hk'; simpl.
    + rewrite Hk. destruct (F32.eqb k' k) eqn:Hk'k; [|done].
      rewrite eqb_sym in Hk'. by rewrite (eqb_trans _ _ _ Hk' Hk'k) in Hk.
    + by rewrite IH.
Qed.

Lemma scoring_index_other (q : list float32) (docs : list VectorDocument)
    (acc : score_map) (k : float32) :
  (forall d, d ∈ docs -> F32.eqb (score q d) k = false) ->
  map_index (foldl (fun chunks doc =>
                      map_assign chunks (score q doc) (Content doc)) acc docs) k
  = map_index acc k.
Proof.
  revert acc. induction docs as [|d docs IH]; intros acc Hd; simpl; [done|].
  rewrite IH by (intros d' Hd'; apply Hd; by right).
  apply map_index_assign_other, Hd. left.
Qed.

(** X4: of the records that score alike, the map of [getSimilarChunks]
    keeps the last one only: looking up the score of a record that no
    later record equals in score gives that record's content, whatever the
    earlier records were. *)
Theorem last_equal_score_wins (q : list float32)
    (before after : list VectorDocument) (d : VectorDocument) :
  F32.is_nan (score q d) = false ->
  (forall d', d' ∈ after -> F32.eqb (score q d') (score q d) = false) ->
  map_index (score_all q (before ++ d :: after)) (score q d) = Content d.
Proof.
  intros Hnan Hafter. unfold score_all. rewrite foldl_app. simpl.
  rewrite (scoring_index_other q after _ (score q d) Hafter).
  by apply map_index_assign_same.
Qed.

Lemma last_equal_score_wins_witness :
  map_index (score_all v10 ([docA; {| Embedding := v10; Content := "A2" |}]
                             ++ {| Embedding := v10; Content := "A3" |} :: [docB]))
            (score v10 {| Embedding := v10; Content := "A3" |})
  = "A3".
Proof.
  apply (last_equal_score_wins v10 [docA; {| Embedding := v10; Content := "A2" |}]
           [docB] {| Embedding := v10; Content := "A3" |}).
  - vm_compute. reflexivity.
  - intros d' Hd'. apply list_elem_of_singleton in Hd' as ->.
    vm_compute. reflexivity.
Defined.

Lemma getSimilarChunks_no_query (llm : Ollama) (question : string) (w : World) :
  (getEmbeddings llm [question]).1 = [] ->
  exists why, getSimilarChunks llm question w = (Panicked why, w).
Proof.
  intros Hemb. unfold getSimilarChunks, get_vdb. rewrite Hemb.
  unfold mbind at 1, Go_bind at 1.
  unfold mbind at 1, Go_bind at 1.
  rewrite scoring_loop_no_query.
  destruct (vdb w); eexists; reflexivity.
Qed.

Lemma getSimilarChunks_state (llm : Ollama) (question : string) (w : World) :
  (getSimilarChunks llm question w).2 = w.
Proof.
  destruct ((getEmbeddings llm [question]).1) as [|q rest] eqn:Hemb.
  - by destruct (getSimilarChunks_no_query llm question w Hemb) as [why ->].
  - rewrite (getSimilarChunks_query llm question q); [done|by rewrite Hemb].
Qed.

(** X5: [getSimilarChunks] never changes the state, and whenever it
    returns it returns exactly three strings, from a store of at least
    three records. *)
Theorem getSimilarChunks_three_or_panic (llm : Ollama) (question : string)
    (w : World) :
  (getSimilarChunks llm question w).2 = w
  /\ (forall chunks,
        (getSimilarChunks llm question w).1 = Returned chunks ->
        length chunks = 3 /\ 3 <= length (vdb w)).
Proof.
  destruct ((getEmbeddings llm [question]).1) as [|q rest] eqn:Hemb.
  - destruct (getSimilarChunks_no_query llm question w Hemb) as [why ->].
    split; [done|]. intros chunks [=].
  - rewrite (getSimilarChunks_query llm question q); [|by rewrite Hemb].
    cbv zeta. split; [done|]. intros chunks. cbn [fst].
    pose proof (score_all_length q (vdb w)) as Hle.
    destruct (Nat.leb_spec 3 (length (score_all q (vdb w)))) as [H3|]; [|done].
    intros [= <-]. split; [|lia].
    rewrite length_fmap, length_take, sort_desc_length.
    unfold map_keys. rewrite length_fmap. lia.
Qed.

Lemma map_index_value (m : score_map) (k : float32) :
  map_index m k = EmptyString \/ exists k', (k', map_index m k) ∈ m.
Proof.
  induction m as [|[k' v'] m IH]; simpl; [by left|].
  destruct (F32.eqb k' k).
  - right. exists k'. left.
  - destruct IH as [IH|[k'' IH]]; [by left|]. right. exists k''. by right.
Qed.

(** X6: every string [getSimilarChunks] returns is the content of a record
    of the store, or the empty string (the value the map gives for a key
    it does not find, as happens for a NaN score). *)
Theorem getSimilarChunks_returns_contents (llm : Ollama) (question : string)
    (w : World) (chunks : list string) (c : string) :
  (getSimilarChunks llm question w).1 = Returned chunks ->
  c ∈ chunks ->
  c = EmptyString \/ exists d, d ∈ vdb w /\ c = Content d.
Proof.
  destruct ((getEmbeddings llm [question]).1) as [|q rest] eqn:Hemb.
  - destruct (getSimilarChunks_no_query llm question w Hemb) as [why ->].
    intros [=].
  - rewrite (getSimilarChunks_query llm question q); [|by rewrite Hemb].
    cbv zeta. cbn [fst].
    destruct (Nat.leb 3 (length (score_all q (vdb w)))); [|done].
    intros [= <-] Hc. apply list_elem_of_fmap in Hc as (k & -> & _).
    destruct (map_index_value (score_all q (vdb w)) k) as [?|[k' Hin]]; [by left|].
    right. apply (scoring_entries q (vdb w) []) in Hin as [Hin|(d & Hd & _ & Hc)].
    + by apply elem_of_nil in Hin.
    + by exists d.
Qed.

Lemma getSimilarChunks_returns_contents_witness :
  "C" = EmptyString \/ exists d, d ∈ vdb scenario /\ "C" = Content d.
Proof.
  apply (getSimilarChunks_returns_contents (const_llm [v10]) "q" scenario
           ["C"; "A"; "B"] "C").
  - vm_compute. reflexivity.
  - left.
Defined.

(** ** The two cleaning passes *)

Lemma filter_all {A} (P : A -> Prop) `{!forall x, Decision (P x)} (l : list A) :
  (forall x, x ∈ l -> P x) -> filter P l = l.
Proof.
  induction l as [|x l IH]; intros Hall; [done|].
  rewrite filter_cons_True by (apply Hall; left).
  f_equal. apply IH. intros y Hy. apply Hall. by right.
Qed.

Lemma nub_NoDup (l : list string) : NoDup l -> nub l = l.
Proof.
  induction 1 as [|x l Hx Hl IH]; simpl; [done|].
  rewrite IH. f_equal. apply filter_all. intros y Hy ->. done.
Qed.

Lemma nub_filter (P : string -> Prop) `{!forall x, Decision (P x)} (l : list string) :
  nub (filter P l) = filter P (nub l).
Proof.
  induction l as [|x l IH]; [done|]. simpl.
  destruct (decide (P x)) as [Hx|Hx].
  - rewrite !filter_cons_True by done. simpl. rewrite IH. f_equal.
    rewrite !list_filter_filter. apply list_filter_iff. tauto.
  - rewrite !filter_cons_False by done. rewrite IH.
    symmetry. apply list_filter_filter_l. intros y Hy ->. done.
Qed.

(** X7: the two passes of [clean] can be taken in either order, and each
    is idempotent: removing duplicates and then short strings gives the
    same list as removing short strings and then duplicates, and a second
    application of either pass changes nothing. *)
Theorem cleaning_passes_commute (l : list string) :
  removeShortStrings (removeDuplicates l) = removeDuplicates (removeShortStrings l)
  /\ removeDuplicates (removeDuplicates l) = removeDuplicates l
  /\ removeShortStrings (removeShortStrings l) = removeShortStrings l.
Proof.
  rewrite !removeShortStrings_filter, !removeDuplicates_nub. split; [|split].
  - by rewrite nub_filter.
  - apply nub_NoDup, NoDup_nub.
  - apply list_filter_filter_l. done.
Qed.

(** ** Adding and loading *)

Lemma new_records_Content (embeddings : list (list float32)) (content : list string) :
  Content <$> new_records embeddings content = take (length embeddings) content.
Proof.
  unfold new_records. revert content.
  induction embeddings as [|e embeddings IH]; intros [|c content]; simpl; try done.
  by rewrite IH.
Qed.

Lemma new_records_Embedding (embeddings : list (list float32)) (content : list string) :
  Embedding <$> new_records embeddings content = take (length content) embeddings.
Proof.
  unfold new_records. revert content.
  induction embeddings as [|e embeddings IH]; intros [|c content]; simpl; try done.
  by rewrite IH.
Qed.

Lemma after_steps_frame (err : option string) (w : World) :
  vdb (after_embed err (after_open w)) = vdb w
  /\ fs_ok (after_embed err (after_open w)) = fs_ok w
  /\ asked (after_embed err (after_open w)) = asked w.
Proof.
  unfold after_embed, after_open.
  destruct err, (fs_ok w) eqn:Hok, (vdb_gob w); simpl; by rewrite ?Hok.
Qed.

(** X8: [addVectorDocuments] returns exactly when the embedder gave at
    least as many vectors as there are chunks, and panics with an index
    out of range otherwise, whether or not an error was reported.  In both
    cases memory grows by the records of the chunks that have a vector:
    chunk [i] with vector [i], in order, surplus vectors being ignored. *)
Theorem add_outcome (llm : Ollama) (content : list string) (w : World) :
  let embeddings := (getEmbeddings llm content).1 in
  let r := addVectorDocuments llm content w in
  (r.1 = Returned tt <-> length content <= length embeddings)
  /\ (r.1 = Panicked "index out of range" <-> length embeddings < length content)
  /\ vdb r.2 = vdb w ++ new_records embeddings content
  /\ Content <$> new_records embeddings content = take (length embeddings) content
  /\ Embedding <$> new_records embeddings content = take (length content) embeddings.
Proof.
  intros embeddings r. subst r. rewrite addVectorDocuments_eq. cbv zeta.
  fold embeddings.
  destruct (decide (length content <= length embeddings)) as [Hle|Hgt]; cbn [fst snd].
  - split; [tauto|]. split; [split; [discriminate|lia]|].
    split; [by destruct (fs_ok w)|].
    split; [apply new_records_Content|apply new_records_Embedding].
  - split; [split; [discriminate|lia]|]. split; [split; [lia|done]|].
    split; [done|].
    split; [apply new_records_Content|apply new_records_Embedding].
Qed.

(** X9: when the file cannot be opened, [addVectorDocuments] logs the
    failure and carries on: the file is left as it was, the records are
    still appended in memory, and if the loop completes the call returns
    normally after logging that the store could not be saved. *)
Theorem add_without_file_access (llm : Ollama) (content : list string) (w : World) :
  fs_ok w = false ->
  let embeddings := (getEmbeddings llm content).1 in
  let r := addVectorDocuments llm content w in
  vdb_gob r.2 = vdb_gob w
  /\ "cannot open gob file:" ∈ logged r.2
  /\ vdb r.2 = vdb w ++ new_records embeddings content
  /\ (length content <= length embeddings ->
        r.1 = Returned tt /\ "cannot save vdb to file" ∈ logged r.2).
Proof.
  intros Hok embeddings r. subst r. rewrite addVectorDocuments_eq. cbv zeta.
  fold embeddings. rewrite Hok. unfold after_open, after_embed. rewrite Hok.
  destruct (decide (length content <= length embeddings)) as [Hle|Hgt];
    destruct ((getEmbeddings llm content).2); cbn;
    (split; [done|]); (split; [set_solver|]); (split; [done|]);
    intros ?; try lia; (split; [done|set_solver]).
Qed.

Lemma add_without_file_access_witness :
  let w := {| vdb := [docB]; vdb_gob := Some (Encoded [docC]); fs_ok := false;
              logged := []; asked := [] |} in
  let embeddings := (getEmbeddings (const_llm [v10]) ["A"]).1 in
  let r := addVectorDocuments (const_llm [v10]) ["A"] w in
  vdb_gob r.2 = vdb_gob w
  /\ "cannot open gob file:" ∈ logged r.2
  /\ vdb r.2 = vdb w ++ new_records embeddings ["A"]
  /\ (length ["A"] <= length embeddings ->
        r.1 = Returned tt /\ "cannot save vdb to file" ∈ logged r.2).
Proof. apply add_without_file_access. reflexivity. Defined.

(** An add that can open the file and has enough vectors. *)
Lemma add_ok (llm : Ollama) (content : list string) (w : World) :
  fs_ok w = true ->
  length content <= length (getEmbeddings llm content).1 ->
  exists w',
    addVectorDocuments llm content w = (Returned tt, w')
    /\ vdb w' = vdb w ++ new_records (getEmbeddings llm content).1 content
    /\ vdb_gob w' = Some (Encoded (vdb w'))
    /\ fs_ok w' = true /\ asked w' = asked w.
Proof.
  intros Hok Hlen. rewrite addVectorDocuments_eq. cbv zeta.
  rewrite decide_True by done. rewrite Hok. eexists. split; [reflexivity|].
  destruct (after_steps_frame (getEmbeddings llm content).2 w) as (_ & Hf & Ha).
  cbn [vdb vdb_gob fs_ok asked set_vdb set_vdb_gob]. by rewrite Hf, Ha.
Qed.

(** X10: after an add that wrote the file, a fresh process that loads it
    has in memory exactly what the adding process had: the records it
    held before the call followed by the new ones. *)
Theorem add_then_fresh_load (llm : Ollama) (content : list string) (w : World) :
  fs_ok w = true ->
  length content <= length (getEmbeddings llm content).1 ->
  let r := addVectorDocuments llm content w in
  (loadVdb (boot (vdb_gob r.2))).1 = Returned tt
  /\ vdb (loadVdb (boot (vdb_gob r.2))).2 = vdb r.2
  /\ vdb r.2 = vdb w ++ new_records (getEmbeddings llm content).1 content.
Proof.
  intros Hok Hlen r. subst r.
  destruct (add_ok llm content w Hok Hlen) as (w' & -> & Hv & Hf & _).
  cbn [fst snd]. rewrite loadVdb_eq. cbn [fst snd boot fs_ok vdb_gob].
  rewrite Hf. done.
Qed.

Lemma add_then_fresh_load_witness :
  let w := set_vdb [docB] (boot (Some (Encoded [docC]))) in
  let r := addVectorDocuments (const_llm [v10; v91]) ["A"; "C"] w in
  (loadVdb (boot (vdb_gob r.2))).1 = Returned tt
  /\ vdb (loadVdb (boot (vdb_gob r.2))).2 = vdb r.2
  /\ vdb r.2 = vdb w ++ new_records (getEmbeddings (const_llm [v10; v91]) ["A"; "C"]).1
                                    ["A"; "C"].
Proof. apply add_then_fresh_load; [reflexivity|simpl; lia]. Defined.

(** X11: two adds in one process accumulate: after the second, memory and
    the file both hold the records held at the start followed by those of
    the first and then those of the second call. *)
Theorem two_adds_accumulate (llm : Ollama) (c1 c2 : list string) (w : World) :
  fs_ok w = true ->
  length c1 <= length (getEmbeddings llm c1).1 ->
  length c2 <= length (getEmbeddings llm c2).1 ->
  let r := (addVectorDocuments llm c1 ;; addVectorDocuments llm c2) w in
  let all := vdb w ++ new_records (getEmbeddings llm c1).1 c1
                   ++ new_records (getEmbeddings llm c2).1 c2 in
  r.1 = Returned tt /\ vdb r.2 = all /\ vdb_gob r.2 = Some (Encoded all).
Proof.
  intros Hok H1 H2 r all. subst r all. rewrite Go_bind_eq.
  destruct (add_ok llm c1 w Hok H1) as (w1 & -> & Hv1 & _ & Hok1 & _).
  destruct (add_ok llm c2 w1 Hok1 H2) as (w2 & -> & Hv2 & Hf2 & _ & _).
  cbn [fst snd]. rewrite Hf2, Hv2, Hv1, <- app_assoc. done.
Qed.

Lemma two_adds_accumulate_witness :
  let llm := const_llm [v10] in
  let r := (addVectorDocuments llm ["A"] ;; addVectorDocuments llm ["A2"]) (boot None) in
  let all := vdb (boot None) ++ new_records (getEmbeddings llm ["A"]).1 ["A"]
                   ++ new_records (getEmbeddings llm ["A2"]).1 ["A2"] in
  r.1 = Returned tt /\ vdb r.2 = all /\ vdb_gob r.2 = Some (Encoded all).
Proof. apply two_adds_accumulate; [reflexivity|simpl; lia|simpl; lia]. Defined.

(** X12: the file is created before the embeddings are asked for.  An add
    that panics for want of vectors therefore leaves an existing file as
    it was, but where there was none it leaves an empty one behind, on
    which a later [loadVdb] reports a decoding error rather than a missing
    file. *)
Theorem panicking_add_leaves_file (llm : Ollama) (content : list string) (w : World) :
  fs_ok w = true ->
  length (getEmbeddings llm content).1 < length content ->
  let r := addVectorDocuments llm content w in
  r.1 = Panicked "index out of range"
  /\ vdb_gob r.2 = Some (default Undecodable (vdb_gob w))
  /\ (vdb_gob w = None ->
      loadVdb (boot (vdb_gob r.2))
      = (Returned tt, add_logged "Error decoding:" (boot (Some Undecodable)))).
Proof.
  intros Hok Hlen r. subst r. rewrite addVectorDocuments_eq. cbv zeta.
  rewrite decide_False by lia. cbn [fst snd]. split; [done|].
  assert (vdb_gob (set_vdb (vdb w ++ new_records (getEmbeddings llm content).1 content)
                     (after_embed (getEmbeddings llm content).2 (after_open w)))
          = Some (default Undecodable (vdb_gob w))) as ->.
  { unfold after_embed, after_open. rewrite Hok.
    destruct ((getEmbeddings llm content).2), (vdb_gob w) eqn:Hf; simpl;
      by rewrite ?Hf. }
  split; [done|]. intros ->. by rewrite loadVdb_eq.
Qed.

Lemma panicking_add_leaves_file_witness :
  let r := addVectorDocuments down_llm ["a b c d"] (boot None) in
  r.1 = Panicked "index out of range"
  /\ vdb_gob r.2 = Some (default Undecodable (vdb_gob (boot None)))
  /\ (vdb_gob (boot None) = None ->
      loadVdb (boot (vdb_gob r.2))
      = (Returned tt, add_logged "Error decoding:" (boot (Some Undecodable)))).
Proof. apply panicking_add_leaves_file; [reflexivity|simpl; lia]. Defined.

Lemma loadVdb_returns (w : World) :
  loadVdb w = (Returned tt, (loadVdb w).2)
  /\ vdb_gob (loadVdb w).2 = vdb_gob w.
Proof.
  rewrite loadVdb_eq. split; [done|]. cbn [snd].
  by destruct (if fs_ok w then vdb_gob w else None) as [[docs|]|].
Qed.

(** X13: [loadVdb] never panics and never writes: it returns normally on
    every state, leaves the file and the record of generator requests as
    they were, and logs exactly one line. *)
Theorem loadVdb_frame (w : World) :
  exists msg,
    (loadVdb w).1 = Returned tt
    /\ vdb_gob (loadVdb w).2 = vdb_gob w
    /\ fs_ok (loadVdb w).2 = fs_ok w
    /\ asked (loadVdb w).2 = asked w
    /\ logged (loadVdb w).2 = logged w ++ [msg].
Proof.
  rewrite loadVdb_eq. cbn [fst snd].
  destruct (if fs_ok w then vdb_gob w else None) as [[docs|]|]; eexists; done.
Qed.

(** ** The command line *)

Lemma index_eq {A} (l : list A) (i : nat) (w : World) :
  index l i w
  = match l !! i with
    | Some x => (Returned x, w)
    | None => (Panicked "index out of range", w)
    end.
Proof. unfold index. by destruct (l !! i). Qed.

(** X14: without a verb, or with the verb "add" and no document, [main]
    panics on the missing argument before anything is logged, written or
    asked. *)
Theorem main_missing_argument (convert : string -> string * option string)
    (llm : Ollama) (Args : list string) (w : World) :
  Args !! 2 = None ->
  Args !! 1 = None \/ Args !! 1 = Some "add" ->
  main convert llm Args w = (Panicked "index out of range", w).
Proof.
  intros H2 H1. unfold main. rewrite Go_bind_eq, index_eq.
  destruct H1 as [-> | ->]; [done|].
  rewrite Go_bind_eq. change (String.eqb "add" "add") with true. cbv iota.
  by rewrite Go_bind_eq, index_eq, H2.
Qed.

Lemma main_missing_argument_witness :
  main (fun _ => ("a b c d", None)) (const_llm [v10]) ["vdb"; "add"] (boot None)
  = (Panicked "index out of range", boot None).
Proof. apply main_missing_argument; [reflexivity|right; reflexivity]. Defined.

(** X15: a verb other than "add" and "call" makes [main] return at once:
    nothing is logged, read, written or asked. *)
Theorem main_unknown_verb (convert : string -> string * option string)
    (llm : Ollama) (Args : list string) (verb : string) (w : World) :
  Args !! 1 = Some verb -> verb <> "add" -> verb <> "call" ->
  main convert llm Args w = (Returned tt, w).
Proof.
  intros H1 Hadd Hcall. unfold main. rewrite Go_bind_eq, index_eq, H1.
  apply String.eqb_neq in Hadd, Hcall. rewrite Go_bind_eq, Hadd, Hcall. done.
Qed.

Lemma main_unknown_verb_witness :
  main (fun _ => ("a b c d", None)) (const_llm [v10]) ["vdb"; "list"] (boot None)
  = (Returned tt, boot None).
Proof. apply (main_unknown_verb _ _ _ "list"); [reflexivity|discriminate|discriminate]. Defined.

(** X16: the error of [convert] is dropped by [main].  When the
    conversion yields the empty text (as it does on each of its error
    paths) the add still runs, with no chunk: it returns normally and
    rewrites the file with the records in memory, which at the start of a
    process are none, so an earlier snapshot is replaced by an empty
    one. *)
Theorem main_add_without_text (convert : string -> string * option string)
    (llm : Ollama) (prog path : string) (w : World) :
  (convert path).1 = EmptyString ->
  fs_ok w = true ->
  let r := main convert llm [prog; "add"; path] w in
  r.1 = Returned tt
  /\ vdb r.2 = vdb w
  /\ vdb_gob r.2 = Some (Encoded (vdb w)).
Proof.
  intros Htext Hok r. subst r. unfold main.
  rewrite Go_bind_eq, index_eq. cbn [lookup list_lookup].
  rewrite Go_bind_eq. change (String.eqb "add" "add") with true. cbv iota.
  rewrite Go_bind_eq, index_eq. cbn [lookup list_lookup].
  rewrite Go_bind_eq. unfold log. cbv beta iota. rewrite Htext.
  change (clean EmptyString) with (@nil string).
  destruct (add_ok llm [] (add_logged "adding document:" w) Hok)
    as (w' & -> & Hv & Hf & _); [simpl; lia|].
  change (String.eqb "add" "call") with false.
  unfold mret, Go_ret. cbv beta iota. cbn [fst snd].
  unfold new_records in Hv. rewrite zip_with_nil_r, app_nil_r in Hv.
  rewrite Hf, Hv. done.
Qed.

Lemma main_add_without_text_witness :
  let r := main (fun _ => (EmptyString, Some "exit status 1")) down_llm
                ["vdb"; "add"; "missing.pdf"] (boot (Some (Encoded [docA]))) in
  r.1 = Returned tt
  /\ vdb r.2 = vdb (boot (Some (Encoded [docA])))
  /\ vdb_gob r.2 = Some (Encoded (vdb (boot (Some (Encoded [docA]))))).
Proof. apply main_add_without_text; reflexivity. Defined.

(** X17: the call path never writes the file: whatever the arguments after
    the verb, the embedder and the outcome, the file is afterwards as it
    was. *)
Theorem main_call_keeps_file (convert : string -> string * option string)
    (llm : Ollama) (Args : list string) (w : World) :
  Args !! 1 = Some "call" ->
  vdb_gob (main convert llm Args w).2 = vdb_gob w.
Proof.
  intros H1. unfold main. rewrite Go_bind_eq, index_eq, H1.
  rewrite Go_bind_eq. change (String.eqb "call" "add") with false. cbv iota.
  unfold mret at 1, Go_ret at 1. cbv beta iota.
  change (String.eqb "call" "call") with true. cbv iota.
  rewrite Go_bind_eq. unfold log at 1. cbv beta iota.
  rewrite Go_bind_eq.
  destruct (loadVdb_returns (add_logged "calling model with document" w))
    as [-> Hfile].
  set (w1 := (loadVdb (add_logged "calling model with document" w)).2) in *.
  rewrite Go_bind_eq, index_eq.
  destruct (Args !! 2) as [question|]; [|done].
  rewrite Go_bind_eq.
  pose proof (getSimilarChunks_state llm question w1) as Hsame.
  destruct (getSimilarChunks llm question w1) as [[chunks|why] w2];
    cbn [fst snd] in *; subst w2; done.
Qed.

Lemma main_call_keeps_file_witness :
  vdb_gob (main (fun _ => ("a b c d", None)) (const_llm [v10]) ["vdb"; "call"; "q"]
             (boot (Some (Encoded [docA; docB; docC])))).2
  = vdb_gob (boot (Some (Encoded [docA; docB; docC]))).
Proof. apply main_call_keeps_file. reflexivity. Defined.


(** ** Retrieval without a usable vector *)

(** X19: when the embedder returns no vector for the question (its error
    is dropped by [getSimilarChunks]), the retrieval panics: at
    [embedding[0]] when the store holds a record, at [keys[:3]] when it is
    empty.  The state is left as it was. *)
Theorem retrieval_without_query_panics (llm : Ollama) (question : string)
    (w : World) :
  (getEmbeddings llm [question]).1 = [] ->
  getSimilarChunks llm question w
  = (Panicked (match vdb w with
               | [] => "slice bounds out of range"
               | _ :: _ => "index out of range"
               end), w).
Proof.
  intros Hemb. unfold getSimilarChunks, get_vdb. rewrite Hemb.
  unfold mbind at 1, Go_bind at 1.
  unfold mbind at 1, Go_bind at 1.
  rewrite scoring_loop_no_query.
  destruct (vdb w); reflexivity.
Qed.

Lemma retrieval_without_query_panics_witness :
  getSimilarChunks down_llm "q" scenario
  = (Panicked (match vdb scenario with
               | [] => "slice bounds out of range"
               | _ :: _ => "index out of range"
               end), scenario).
Proof. apply retrieval_without_query_panics. reflexivity. Defined.

Lemma dotproduct_nil_r (a : list float32) : dotproduct a [] = F32.zero.
Proof. by destruct a. Qed.

(** X20: a record stored with an empty embedding scores NaN against every
    query vector: its dot product is +0 and its magnitude is +0, so the
    quotient is 0/0 (or has a NaN denominator). *)
Theorem empty_embedding_scores_nan (q : list float32) :
  similarity q [] = S754_nan.
Proof.
  unfold similarity. rewrite dotproduct_nil_r.
  change (magnitude []) with (S754_zero false).
  pose proof (magnitude_sign_clear_aux q) as Hq.
  destruct (magnitude q) as [s|s| |s m e]; simpl in *; subst; reflexivity.
Qed.

Lemma main_add_replaces_snapshot_witness :
  let convert := fun _ : string => ("a b c d", @None string) in
  let content := clean (convert "x.pdf").1 in
  let embeddings := (getEmbeddings (const_llm [v10]) content).1 in
  vdb_gob (main convert (const_llm [v10]) ["vdb"; "add"; "x.pdf"]
             (boot (Some (Encoded [docC])))).2
  = Some (Encoded (new_records embeddings content)).
Proof.
  apply (main_add_replaces_snapshot (fun _ => ("a b c d", None)) (const_llm [v10])
           "x.pdf" [docC]).
  vm_compute. repeat constructor.
Defined.
